(** * SeedVr2Server: the tile/offload planner and the CLI invoker

    A shallow embedding of [UpscaleServer/SeedVr2Server.py]:
    - [Py]: the fragment of Python's run-time semantics the file relies on
      (exceptions, binary64 floats, [int / int], [int * float], [int(float)],
      [str(int)]);
    - [UpscaleRequest] and its [resolution] validator;
    - [calculate_tile_settings], the planner;
    - [upscale_with_cli], the invoker, over an explicit world (file system)
      with the external collaborators (the PNG codec, the SeedVR2 CLI) as
      parameters.
    Calls of [print] are left out, except for what evaluating their message
    can raise. *)

From Stdlib Require Import ZArith Lia List String Ascii Bool.
From Stdlib Require Import Strings.Byte.
From Stdlib Require Import Floats.SpecFloat DecimalString.
Import ListNotations.

Local Open Scope Z_scope.

(** ** Python run-time semantics *)

Module Py.

(** The exceptions that can escape the modelled code. *)
Inductive exn : Type :=
| ZeroDivisionError
| OverflowError
| ValueError
| TypeError
| FileExistsError (path : string)
| FileNotFoundError (path : string)
| OSError (msg : string)
| TimeoutExpired
| RuntimeError (msg : string).

(** A computation without side effects that may raise. *)
Definition result (A : Type) : Type := (exn + A)%type.

Definition ok {A} (a : A) : result A := inr a.
Definition raise {A} (e : exn) : result A := inl e.

Definition bind {A B} (r : result A) (k : A -> result B) : result B :=
  match r with
  | inl e => inl e
  | inr a => k a
  end.

(** *** binary64 *)

Definition prec : Z := 53.
Definition emax : Z := 1024.

(** Python's [float] is IEEE-754 binary64; [spec_float] is the
    specification the primitive floats of Rocq are checked against. *)
Definition float : Type := spec_float.

(** [float(z)]: the nearest binary64, ties to even; [OverflowError] when
    the integer is too large. *)
Definition float_of_int (z : Z) : result float :=
  match binary_normalize prec emax z 0 false with
  | S754_infinity _ => raise OverflowError
  | f => ok f
  end.

(** The integer [z <> 0] as an exact (unnormalised) operand. *)
Definition exact_int (z : Z) : float :=
  S754_finite (z <? 0) (Z.to_pos (Z.abs z)) 0.

(** [a / b] on two [int]s: true division, the exact quotient rounded once
    to binary64. *)
Definition int_truediv (a b : Z) : result float :=
  if b =? 0 then raise ZeroDivisionError
  else if a =? 0 then ok (S754_zero (b <? 0))
  else match SFdiv prec emax (exact_int a) (exact_int b) with
       | S754_infinity _ => raise OverflowError
       | f => ok f
       end.

(** [z * x] with [z : int] and [x : float]: [z] is converted first. *)
Definition int_mul_float (z : Z) (x : float) : result float :=
  bind (float_of_int z) (fun fz => ok (SFmul prec emax fz x)).

(** [int(x)]: truncation toward zero. *)
Definition int_of_float (x : float) : result Z :=
  match x with
  | S754_zero _ => ok 0
  | S754_infinity _ => raise OverflowError
  | S754_nan => raise ValueError
  | S754_finite s m e =>
      let a := match e with
               | Zneg p => Z.shiftr (Zpos m) (Zpos p)
               | _ => Z.shiftl (Zpos m) e
               end in
      ok (if s then - a else a)
  end.

(** [x > 0] for a float [x] and the integer literal [0]. *)
Definition float_gt_zero (x : float) : bool :=
  SFltb (S754_zero false) x.

(** [x < n] for a float [x] and an [int] [n]: the two are compared
    exactly. *)
Definition float_lt_int (x : float) (n : Z) : bool :=
  match x with
  | S754_nan => false
  | S754_infinity s => s
  | S754_zero _ => 0 <? n
  | S754_finite s m e =>
      let v := if s then Zneg m else Zpos m in
      match e with
      | Zneg p => v <? n * 2 ^ Zpos p
      | _ => v * 2 ^ e <? n
      end
  end.

(** [str(z)] for an [int]: the decimal numeral, with a leading minus sign
    for negative numbers. *)
Definition str_int (z : Z) : string :=
  NilZero.string_of_int (Z.to_int z).

(** [a or b] on two strings: [a] unless it is empty. *)
Definition str_or (a b : string) : string :=
  match a with
  | EmptyString => b
  | _ => a
  end.

End Py.

Notation "x <- c ;; k" := (Py.bind c (fun x => k))
  (at level 61, c at next level, right associativity).
Notation "' p <- c ;; k" := (Py.bind c (fun v => let 'p := v in k))
  (at level 61, p pattern, c at next level, right associativity).

(** ** The planner (lines 148-193) *)

(** Lines 154-160: the output dimensions [(out_width, out_height)]. *)
Definition output_dimensions (width height target_resolution : Z)
  : Py.result (Z * Z) :=
  if height <? width then
    let out_height := target_resolution in
    r <- Py.int_truediv target_resolution height;;
    p <- Py.int_mul_float width r;;
    out_width <- Py.int_of_float p;;
    Py.ok (out_width, out_height)
  else
    let out_width := target_resolution in
    r <- Py.int_truediv target_resolution width;;
    p <- Py.int_mul_float height r;;
    out_height <- Py.int_of_float p;;
    Py.ok (out_width, out_height).

Definition calculate_tile_settings (width height target_resolution : Z)
  : Py.result (Z * Z * Z) :=
  '(out_width, out_height) <-
    output_dimensions width height target_resolution;;
  let max_dim := Z.max out_width out_height in
  let total_pixels := out_width * out_height in
  let tile_size :=
    if max_dim <=? 1024 then 512
    else if max_dim <=? 2048 then 512
    else if max_dim <=? 4096 then 384
    else 256 in
  let tile_overlap := Z.max 64 (tile_size / 4) in
  let blocks_to_swap :=
    if 40000000 <? total_pixels then 32
    else if 25000000 <? total_pixels then 24
    else if 16000000 <? total_pixels then 16
    else if 9000000 <? total_pixels then 8
    else 0 in
  Py.ok (tile_size, tile_overlap, blocks_to_swap).

(** ** The request model (lines 129-145) *)

Record UpscaleRequest : Type := {
  name : string;
  resolution : Z;
  max_resolution : Z;
  seed : Z;
  color_correction : string;
  input_noise_scale : Py.float;
  latent_noise_scale : Py.float;
  image_base64 : string
}.

(** The raw value the [pre=True] validator receives for the field: a JSON
    [null], boolean, integer, float or string. *)
Inductive PyVal : Type :=
| VNone
| VBool (b : bool)
| VInt (z : Z)
| VFloat (x : Py.float)
| VStr (s : string).

(** [v < 64]: defined on numbers ([bool] is a subclass of [int]), a
    [TypeError] between a string or [None] and an integer. *)
Definition lt_int (v : PyVal) (n : Z) : Py.result bool :=
  match v with
  | VBool b => Py.ok ((if b then 1 else 0) <? n)
  | VInt z => Py.ok (z <? n)
  | VFloat x => Py.ok (Py.float_lt_int x n)
  | VNone | VStr _ => Py.raise Py.TypeError
  end.

(** Lines 140-145. *)
Definition ensure_minimum_resolution (v : PyVal) : Py.result PyVal :=
  match v with
  | VNone => Py.ok (VInt 1080)
  | _ =>
      b <- lt_int v 64;;
      if b then Py.ok (VInt 1080) else Py.ok v
  end.

(** Line 132, [Field(default=1080, ge=64)] on an [int] field: what the
    validator returned is made an integer, then checked against the bound.
    [int_of] is the conversion pydantic applies to a float. *)
Definition int_field_ge (int_of : Py.float -> Py.result Z) (bound : Z)
    (v : PyVal) : Py.result Z :=
  z <- match v with
       | VBool b => Py.ok (if b then 1 else 0)
       | VInt z => Py.ok z
       | VFloat x => int_of x
       | VNone | VStr _ => Py.raise Py.TypeError
       end;;
  if bound <=? z then Py.ok z else Py.raise Py.ValueError.

(** The [resolution] field of an incoming request: [always=True] runs the
    validator on the default when the key is absent. *)
Definition resolution_field (int_of : Py.float -> Py.result Z)
    (raw : option PyVal) : Py.result Z :=
  let v := match raw with
           | None => VInt 1080
           | Some v => v
           end in
  v' <- ensure_minimum_resolution v;;
  int_field_ge int_of 64 v'.

(** The request built from the raw [resolution] and the other fields. *)
Definition parse_request (int_of : Py.float -> Py.result Z)
    (raw_resolution : option PyVal) (rest : UpscaleRequest)
  : Py.result UpscaleRequest :=
  r <- resolution_field int_of raw_resolution;;
  Py.ok {| name := name rest;
           resolution := r;
           max_resolution := max_resolution rest;
           seed := seed rest;
           color_correction := color_correction rest;
           input_noise_scale := input_noise_scale rest;
           latent_noise_scale := latent_noise_scale rest;
           image_base64 := image_base64 rest |}.

(** ** Paths and the file system *)

Local Open Scope string_scope.
Local Open Scope list_scope.

(** [pathlib]: [d / name] on POSIX paths. *)
Definition path_join (d name : string) : string := (d ++ "/" ++ name)%string.

Definition ends_with (suffix s : string) : bool :=
  (String.length suffix <=? String.length s)%nat
  && String.eqb
       (substring (String.length s - String.length suffix)
                  (String.length suffix) s)
       suffix.

(** [p] is [d] itself or lies below it. *)
Definition is_under (d p : string) : bool :=
  String.eqb p d || prefix (d ++ "/")%string p.

(** The name of [p] inside [d], when [p] is a direct child of [d]. *)
Definition child_name (d p : string) : option string :=
  if prefix (d ++ "/")%string p then
    let n := substring (String.length d + 1)
                       (String.length p - (String.length d + 1)) p in
    match n, index 0 "/" n with
    | EmptyString, _ => None
    | _, Some _ => None
    | _, None => Some n
    end
  else None.

Inductive node : Type :=
| Dir
| File (content : list byte).

(** The file system: the existing paths in directory-listing order. *)
Definition World : Type := list (string * node).

Definition lookup_path (p : string) (w : World) : option node :=
  match find (fun e => String.eqb (fst e) p) w with
  | Some e => Some (snd e)
  | None => None
  end.

Definition path_exists (p : string) (w : World) : bool :=
  match lookup_path p w with
  | Some _ => true
  | None => false
  end.

(** [d.glob("*.png")]: the direct children of [d] whose name ends in
    [.png], in listing order. *)
Definition glob_png (d : string) (w : World) : list string :=
  filter (fun p => match child_name d p with
                   | Some n => ends_with ".png" n
                   | None => false
                   end)
         (map fst w).

(** What [shutil.rmtree(d, ignore_errors=True)] leaves behind: everything
    outside [d], and inside [d] the entries that cannot be deleted together
    with the directories above them. *)
Definition rmtree_survivors (locked : string -> bool) (d : string)
    (w : World) : World :=
  filter (fun e =>
            negb (is_under d (fst e))
            || existsb (fun e' => locked (fst e') && is_under (fst e) (fst e')) w)
         w.

(** ** Effects: a state-and-exception monad over the file system *)

Definition M (A : Type) : Type := World -> World * Py.result A.

Definition ret {A} (a : A) : M A := fun w => (w, Py.ok a).

Definition throw {A} (e : Py.exn) : M A := fun w => (w, Py.raise e).

Definition lift {A} (r : Py.result A) : M A := fun w => (w, r).

Definition mbind {A B} (c : M A) (k : A -> M B) : M B :=
  fun w =>
    match c w with
    | (w', inl e) => (w', inl e)
    | (w', inr a) => k a w'
    end.

Notation "x <~ c ;; k" := (mbind c (fun x => k))
  (at level 61, c at next level, right associativity).

(** [try: body finally: fin]. The final block always runs; an exception it
    raises replaces the outcome of [body]. *)
Definition try_finally {A} (body : M A) (fin : M unit) : M A :=
  fun w =>
    let (w1, r) := body w in
    match fin w1 with
    | (w2, inl e) => (w2, inl e)
    | (w2, inr _) => (w2, r)
    end.

(** [try: body except Exception as e: handler e]. *)
Definition try_except {A} (body : M A) (handler : Py.exn -> M A) : M A :=
  fun w =>
    match body w with
    | (w1, inl e) => handler e w1
    | (w1, inr a) => (w1, inr a)
    end.

(** [list(p.iterdir())]: the entries directly inside the directory [p]. *)
Definition iterdir (p : string) : M (list string) :=
  fun w =>
    match lookup_path p w with
    | Some Dir =>
        (w, Py.ok (filter (fun q => match child_name p q with
                                    | Some _ => true
                                    | None => false
                                    end)
                          (map fst w)))
    | Some (File _) => (w, Py.raise (Py.OSError "Not a directory"))
    | None => (w, Py.raise (Py.FileNotFoundError p))
    end.

(** ** The invoker (lines 222-338) *)

Module PIL.
Record Image : Type := { width : Z; height : Z; pixels : list byte }.
End PIL.

(** [subprocess.CompletedProcess] with captured text output. *)
Record CompletedProcess : Type := {
  returncode : Z;
  stdout : string;
  stderr : string
}.

(** The arguments of the [subprocess.run] call of lines 283-292. *)
Record RunArgs : Type := {
  args : list string;
  cwd : string;
  timeout : Z;
  env_extra : list (string * string);
  encoding : string;
  errors : string
}.

(** What the function takes from outside the repository: the interpreter
    and install paths, the name [tempfile.mkdtemp] picks, [str] on floats,
    the PNG codec, the external process, and the entries of the scratch
    directory that the operating system refuses to delete. *)
Record Externals : Type := {
  sys_executable : string;
  SEEDVR2_REPO_DIR : string;
  tmp_name : string;
  str_float : Py.float -> string;
  png_encode : PIL.Image -> Py.result (list byte);
  image_size : list byte -> Py.result (Z * Z);
  subprocess_run : RunArgs -> M CompletedProcess;
  locked : string -> bool
}.

Section Invoker.

Variable E : Externals.

(** [tempfile.mkdtemp()]. *)
Definition mkdtemp : M string :=
  fun w =>
    if path_exists (tmp_name E) w
    then (w, Py.raise (Py.FileExistsError (tmp_name E)))
    else (w ++ [(tmp_name E, Dir)], Py.ok (tmp_name E)).

(** [(d / name).mkdir()]. *)
Definition mkdir (d name : string) : M unit :=
  fun w =>
    if negb (path_exists d w)
    then (w, Py.raise (Py.FileNotFoundError (path_join d name)))
    else if path_exists (path_join d name) w
    then (w, Py.raise (Py.FileExistsError (path_join d name)))
    else (w ++ [(path_join d name, Dir)], Py.ok tt).

(** Writing a file: a new entry, or the content of the old one replaced. *)
Definition write_file (p : string) (content : list byte) : M unit :=
  fun w =>
    match lookup_path p w with
    | Some Dir => (w, Py.raise (Py.OSError "Is a directory"))
    | Some (File _) =>
        (map (fun e => if String.eqb (fst e) p then (p, File content) else e) w,
         Py.ok tt)
    | None => (w ++ [(p, File content)], Py.ok tt)
    end.

(** [image.save(p, "PNG")]. *)
Definition image_save (image : PIL.Image) (p : string) : M unit :=
  content <~ lift (png_encode E image);;
  write_file p content.

(** [p.read_bytes()]. *)
Definition read_bytes (p : string) : M (list byte) :=
  fun w =>
    match lookup_path p w with
    | Some (File content) => (w, Py.ok content)
    | Some Dir => (w, Py.raise (Py.OSError "Is a directory"))
    | None => (w, Py.raise (Py.FileNotFoundError p))
    end.

(** [shutil.rmtree(d, ignore_errors=True)]: never raises. *)
Definition rmtree_ignore_errors (d : string) : M unit :=
  fun w => (rmtree_survivors (locked E) d w, Py.ok tt).

(** Lines 236-273: the argument list. *)
Definition build_cmd (image : PIL.Image) (request : UpscaleRequest)
    (input_path output_dir : string) : Py.result (list string) :=
  let cmd :=
    [ sys_executable E; path_join (SEEDVR2_REPO_DIR E) "inference_cli.py";
      input_path;
      "--output"; output_dir;
      "--resolution"; Py.str_int (resolution request);
      "--seed"; Py.str_int (seed request);
      "--color_correction"; color_correction request;
      "--batch_size"; "1" ] in
  let cmd :=
    if (0 <? max_resolution request)%Z
    then cmd ++ ["--max_resolution"; Py.str_int (max_resolution request)]
    else cmd in
  let cmd :=
    if Py.float_gt_zero (input_noise_scale request)
    then cmd ++ ["--input_noise_scale";
                 str_float E (input_noise_scale request)]
    else cmd in
  let cmd :=
    if Py.float_gt_zero (latent_noise_scale request)
    then cmd ++ ["--latent_noise_scale";
                 str_float E (latent_noise_scale request)]
    else cmd in
  '(tile_size, tile_overlap, blocks_to_swap) <-
    calculate_tile_settings (PIL.width image) (PIL.height image)
                            (resolution request);;
  let cmd := cmd ++ ["--vae_encode_tiled"] in
  let cmd := cmd ++ ["--vae_decode_tiled"] in
  let cmd := cmd ++ ["--vae_encode_tile_size"; Py.str_int tile_size] in
  let cmd := cmd ++ ["--vae_decode_tile_size"; Py.str_int tile_size] in
  let cmd := cmd ++ ["--vae_encode_tile_overlap"; Py.str_int tile_overlap] in
  let cmd := cmd ++ ["--vae_decode_tile_overlap"; Py.str_int tile_overlap] in
  let cmd :=
    if (0 <? blocks_to_swap)%Z
    then ((cmd ++ ["--blocks_to_swap"; Py.str_int blocks_to_swap])
            ++ ["--dit_offload_device"; "cpu"])
           ++ ["--swap_io_components"]
    else cmd in
  Py.ok cmd.

(** Lines 228-297: stage the input, run the CLI, fail on a non-zero exit
    code. *)
Definition stage_and_run (tmpdir : string) (image : PIL.Image)
    (request : UpscaleRequest) : M CompletedProcess :=
  let input_path := path_join tmpdir "input.png" in
  let output_dir := path_join tmpdir "output" in
  _ <~ mkdir tmpdir "output";;
  _ <~ image_save image input_path;;
  cmd <~ lift (build_cmd image request input_path output_dir);;
  result <~ subprocess_run E
    {| args := cmd;
       cwd := SEEDVR2_REPO_DIR E;
       timeout := 7200;
       env_extra := [("PYTHONIOENCODING", "utf-8");
                     ("PYTHONLEGACYWINDOWSSTDIO", "0")];
       encoding := "utf-8";
       errors := "replace" |};;
  if negb (returncode result =? 0)%Z
  then throw (Py.RuntimeError
                ("CLI failed: "
                 ++ Py.str_or (stderr result) (stdout result))%string)
  else ret result.

(** Lines 301-318: where the output artifact is. *)
Definition find_output (tmpdir : string) (result : CompletedProcess)
  : M string :=
  let output_dir := path_join tmpdir "output" in
  let output_file := path_join output_dir "input.png" in
  fun w =>
    if path_exists output_file w then (w, Py.ok output_file)
    else
      let output_files :=
        if path_exists output_dir w then glob_png output_dir w else [] in
      match output_files with
      | first :: _ => (w, Py.ok first)
      | [] =>
          (* the two directory listings are printed before the raise *)
          (_ <~ iterdir tmpdir;;
           _ <~ (fun w' => if path_exists output_dir w'
                           then iterdir output_dir w'
                           else (w', Py.ok []));;
           throw (Py.RuntimeError
                    ("No output file found. CLI output: "
                     ++ stdout result)%string)) w
      end.

(** Lines 320-330: the raw bytes, and the size read back from them. *)
Definition load_output (output_file : string) : M (list byte * Z * Z) :=
  output_bytes <~ read_bytes output_file;;
  content <~ read_bytes output_file;;
  size <~ lift (image_size E content);;
  ret (output_bytes, fst size, snd size).

(** The body of the [try] statement, lines 228-330. *)
Definition try_block (tmpdir : string) (image : PIL.Image)
    (request : UpscaleRequest) : M (list byte * Z * Z) :=
  result <~ stage_and_run tmpdir image request;;
  output_file <~ find_output tmpdir result;;
  load_output output_file.

(** The [finally] block, lines 332-338. *)
Definition cleanup (tmpdir : string) : M unit :=
  try_except (rmtree_ignore_errors tmpdir) (fun _ => ret tt).

Definition upscale_with_cli (image : PIL.Image) (request : UpscaleRequest)
  : M (list byte * Z * Z) :=
  tmpdir <~ mkdtemp;;
  try_finally (try_block tmpdir image request) (cleanup tmpdir).

End Invoker.

(** ** Stub collaborators for the worked examples *)

Module Stub.

(** An external tool that appends [files] to the file system and exits
    with code [rc]. *)
Definition tool (rc : Z) (files : World) : RunArgs -> M CompletedProcess :=
  fun _ w =>
    (w ++ files,
     Py.ok {| returncode := rc; stdout := "done"; stderr := "oops" |}).

(** An external tool that never finishes in time. *)
Definition hanging_tool : RunArgs -> M CompletedProcess :=
  fun _ w => (w, Py.raise Py.TimeoutExpired).

Definition externals (run : RunArgs -> M CompletedProcess)
    (lk : string -> bool) : Externals :=
  {| sys_executable := "/usr/bin/python3";
     SEEDVR2_REPO_DIR := "/srv/ComfyUI-SeedVR2_VideoUpscaler";
     tmp_name := "/tmp/tmpk3v9";
     str_float := fun _ => "0.5";
     png_encode := fun im => Py.ok (PIL.pixels im);
     image_size := fun _ => Py.ok (1920, 1080)%Z;
     subprocess_run := run;
     locked := lk |}.

Definition nothing_locked : string -> bool := fun _ => false.

Definition request : UpscaleRequest :=
  {| name := "job";
     resolution := 1080;
     max_resolution := 0;
     seed := 42;
     color_correction := "lab";
     input_noise_scale := S754_zero false;
     latent_noise_scale := S754_zero false;
     image_base64 := "" |}.

Definition image : PIL.Image :=
  {| PIL.width := 1920; PIL.height := 1080; PIL.pixels := [x89; x50] |}.

Definition disk : World := [("/tmp", Dir)].

End Stub.

(** ** Rounding invariant for the binary64 operations *)

(** The record [mrs] holds the integer part of [N / D] and its rounding
    bits. *)
Definition loc_inv (mrs : shr_record) (N D : Z) : Prop :=
  (0 < D /\ 0 <= shr_m mrs /\
   0 <= N - shr_m mrs * D < D /\
   shr_r mrs = (D <=? 2 * (N - shr_m mrs * D)) /\
   shr_s mrs = negb (N - shr_m mrs * D =? 0)
               && negb (2 * (N - shr_m mrs * D) =? D))%Z.


(** ** Vocabulary of the statements *)

(** [r] is an integer nearest to the fraction [n / d] (whatever the rule
    for ties). *)
Definition nearest_integer (n d r : Z) : Prop :=
  (2 * Z.abs (r * d - n) <= d)%Z.

(** A command-line token that reads as an option name. *)
Definition is_option (s : string) : bool :=
  match s with
  | String c1 (String c2 _) => Ascii.eqb c1 "-" && Ascii.eqb c2 "-"
  | _ => false
  end.

Definition plain (s : string) : Prop := is_option s = false.

(** None of the strings the environment contributes to the command reads as
    an option name. *)
Definition plain_environment (E : Externals) (tmpdir : string) : Prop :=
  plain (sys_executable E) /\ plain (SEEDVR2_REPO_DIR E) /\ plain tmpdir /\
  forall x, plain (str_float E x).

(** [flag] is in the list and [value] is the token after it. *)
Definition adjacent (flag value : string) (l : list string) : Prop :=
  exists l1 l2, l = l1 ++ flag :: value :: l2.

(** File names that denote an image file, by extension. *)
Definition image_extensions : list string :=
  [".png"; ".jpg"; ".jpeg"; ".webp"; ".bmp"; ".gif"; ".tiff"].

Definition is_image_name (n : string) : bool :=
  existsb (fun ext => ends_with ext n) image_extensions.

(** ** Bootstrap (lines 33-119) *)

(** A [subprocess.run] call of the bootstrap: the argument vector, the time
    limit, and the text decoding when one is asked for. *)
Record Command : Type := {
  argv : list string;
  time_limit : Z;
  decoding : option (string * string)
}.

(** What the bootstrap takes from outside the repository: where the script
    lives, the interpreter, processes, the download, the archive and the
    file operations whose failures the operating system decides. *)
Record Bootstrap : Type := {
  SCRIPT_DIR : string;
  python : string;
  run : Command -> M CompletedProcess;
  urlretrieve : string -> string -> M unit;
  extractall : string -> string -> M unit;
  rmtree : string -> M unit;
  rename : string -> string -> M unit;
  unlink_missing_ok : string -> M unit
}.

(** [try: body except (FileNotFoundError, subprocess.TimeoutExpired)]. *)
Definition missing_or_timeout (e : Py.exn) : bool :=
  match e with
  | Py.FileNotFoundError _ | Py.TimeoutExpired => true
  | _ => false
  end.

(** How the module-level code of lines 113-121 ends. *)
Inductive StartupOutcome : Type :=
| SystemExit (code : Z)
| Raised (e : Py.exn)
| Imports.

Section Setup.

Variable B : Bootstrap.

(** Line 23. *)
Definition repo_dir : string :=
  path_join (SCRIPT_DIR B) "ComfyUI-SeedVR2_VideoUpscaler".

(** Lines 56-83: the zip fallback. Whatever it raises makes it [False]. *)
Definition download_zip : M bool :=
  let zip_url :=
    "https://github.com/numz/ComfyUI-SeedVR2_VideoUpscaler/archive/refs/heads/main.zip" in
  let zip_path := path_join (SCRIPT_DIR B) "seedvr2_temp.zip" in
  let extracted :=
    path_join (SCRIPT_DIR B) "ComfyUI-SeedVR2_VideoUpscaler-main" in
  try_except
    (_ <~ urlretrieve B zip_url zip_path;;
     _ <~ extractall B zip_path (SCRIPT_DIR B);;
     _ <~ (fun w =>
             if path_exists extracted w then
               (_ <~ (fun w' => if path_exists repo_dir w'
                                then rmtree B repo_dir w'
                                else (w', Py.ok tt));;
                rename B extracted repo_dir) w
             else (w, Py.ok tt));;
     _ <~ unlink_missing_ok B zip_path;;
     ret true)
    (fun _ => ret false).

(** Lines 33-83. *)
Definition setup_seedvr2 : M bool :=
  fun w =>
    if path_exists (path_join repo_dir "inference_cli.py") w
    then (w, Py.ok true)
    else
      match run B {| argv := ["git"; "clone"; "--depth"; "1";
                              "https://github.com/numz/ComfyUI-SeedVR2_VideoUpscaler.git";
                              repo_dir];
                     time_limit := 300;
                     decoding := None |} w with
      | (w1, inr result) =>
          if (returncode result =? 0)%Z then (w1, Py.ok true)
          else download_zip w1
      | (w1, inl e) =>
          if missing_or_timeout e then download_zip w1 else (w1, inl e)
      end.

(** Lines 86-110. *)
Definition install_dependencies : M unit :=
  let requirements := path_join repo_dir "requirements.txt" in
  fun w =>
    if negb (path_exists requirements w) then (w, Py.ok tt)
    else
      try_except
        (_ <~ run B {| argv := [python B; "-m"; "pip"; "install"; "-r";
                                requirements];
                       time_limit := 600;
                       decoding := Some ("utf-8", "replace") |};;
         ret tt)
        (fun _ => ret tt) w.

(** Lines 113-119: the module stops with exit code 1 when the setup
    reports failure, and goes on to its imports otherwise. *)
Definition startup : World -> World * StartupOutcome :=
  fun w =>
    match setup_seedvr2 w with
    | (w1, inl e) => (w1, Raised e)
    | (w1, inr false) => (w1, SystemExit 1)
    | (w1, inr true) =>
        match install_dependencies w1 with
        | (w2, inl e) => (w2, Raised e)
        | (w2, inr _) => (w2, Imports)
        end
    end.

End Setup.

(** ** The HTTP surface (lines 196-220 and 341-430) *)

Module Response.
Record UpscaleResponse : Type := {
  success : bool;
  message : string;
  image_base64 : option string;
  width : option Z;
  height : option Z
}.
End Response.

(** [fastapi.responses.Response]. *)
Record RawResponse : Type := {
  content : list byte;
  media_type : string;
  headers : list (string * string)
}.

Record HTTPException : Type := {
  status_code : Z;
  detail : string
}.

(** Lines 204-208. *)
Record ServerState : Type := {
  ready : bool;
  models_downloaded : bool;
  error : option string
}.

(** [ServerState()]. *)
Definition new_state : ServerState :=
  {| ready := false; models_downloaded := false; error := None |}.

(** Lines 214-219. *)
Definition check_models (state : ServerState) : ServerState :=
  {| ready := true; models_downloaded := true; error := error state |}.

(** Lines 355-362. *)
Record Health : Type := {
  status : string;
  models_ready : bool;
  health_error : option string;
  note : string
}.

Definition health_check (state : ServerState) : Health :=
  {| status := if ready state then "healthy" else "starting";
     models_ready := models_downloaded state;
     health_error := error state;
     note := "Models download automatically on first request (~6GB)" |}.

(** What the endpoints take from the libraries: base64, the image decoder
    ([Image.open(...).convert("RGB")]) and [str] on an exception that is not
    built from a message. *)
Record Web : Type := {
  b64decode : string -> Py.result (list byte);
  b64encode : list byte -> string;
  image_open_rgb : list byte -> Py.result PIL.Image;
  describe : Py.exn -> string
}.

(** [str(e)]: the message of an exception built from one. *)
Definition str_exn (W : Web) (e : Py.exn) : string :=
  match e with
  | Py.RuntimeError msg => msg
  | _ => describe W e
  end.

(** A handler either answers or raises an [HTTPException]. *)
Definition Handler (A : Type) : Type := World -> World * (HTTPException + A).

(** Lines 365-406. *)
Definition upscale_endpoint (W : Web) (E : Externals) (state : ServerState)
    (request : UpscaleRequest) : Handler Response.UpscaleResponse :=
  fun w =>
    if negb (ready state)
    then (w, inl {| status_code := 503; detail := "Server not ready" |})
    else
      match (image_data <~ lift (b64decode W (image_base64 request));;
             input_image <~ lift (image_open_rgb W image_data);;
             upscale_with_cli E input_image request) w with
      | (w', inr (output_bytes, width, height)) =>
          (w', inr {| Response.success := true;
                      Response.message := "Image upscaled successfully";
                      Response.image_base64 := Some (b64encode W output_bytes);
                      Response.width := Some width;
                      Response.height := Some height |})
      | (w', inl e) =>
          (w', inl {| status_code := 500; detail := str_exn W e |})
      end.

(** Lines 409-430. *)
Definition upscale_raw (W : Web) (E : Externals) (state : ServerState)
    (request : UpscaleRequest) : Handler RawResponse :=
  fun w =>
    if negb (ready state)
    then (w, inl {| status_code := 503; detail := "Server not ready" |})
    else
      match (image_data <~ lift (b64decode W (image_base64 request));;
             input_image <~ lift (image_open_rgb W image_data);;
             upscale_with_cli E input_image request) w with
      | (w', inr (output_bytes, width, height)) =>
          (w', inr {| content := output_bytes;
                      media_type := "image/png";
                      headers := [("X-Image-Width", Py.str_int width);
                                  ("X-Image-Height", Py.str_int height)] |})
      | (w', inl e) =>
          (w', inl {| status_code := 500; detail := str_exn W e |})
      end.

(** ** More vocabulary *)

(** A float that is not NaN and whose sign bit is clear. *)
Definition sign_clear (f : Py.float) : Prop :=
  match f with
  | S754_zero s | S754_infinity s | S754_finite s _ _ => s = false
  | S754_nan => False
  end.

(** The computation [c] leaves the entry at path [p] as it finds it. *)
Definition keeps (p : string) {A : Type} (c : M A) : Prop :=
  forall w, lookup_path p (fst (c w)) = lookup_path p w.

(** * Properties *)

(** ** Binary64 rounding *)

Local Open Scope Z_scope.

(** [digits2_pos p] is the bit length of [p]. *)
Lemma digits2_pos_bounds p :
  2 ^ (Zpos (digits2_pos p) - 1) <= Zpos p < 2 ^ Zpos (digits2_pos p).
Proof.
  induction p as [p IH | p IH |]; cbn [digits2_pos].
  - rewrite Pos2Z.inj_succ.
    replace (Z.succ (Zpos (digits2_pos p)) - 1)
      with (Z.succ (Zpos (digits2_pos p) - 1)) by lia.
    rewrite !Z.pow_succ_r by lia. lia.
  - rewrite Pos2Z.inj_succ.
    replace (Z.succ (Zpos (digits2_pos p)) - 1)
      with (Z.succ (Zpos (digits2_pos p) - 1)) by lia.
    rewrite !Z.pow_succ_r by lia. lia.
  - cbn. lia.
Qed.

Lemma Zdigits2_log2 m : 0 < m -> Zdigits2 m = Z.log2 m + 1.
Proof.
  intros Hm. destruct m as [| p | p]; try lia.
  cbn [Zdigits2]. pose proof (digits2_pos_bounds p) as [H1 H2].
  symmetry. apply Z.add_move_r. apply Z.log2_unique; [lia|].
  replace (Z.succ (Z.pos (digits2_pos p) - 1))
    with (Z.pos (digits2_pos p)) by lia.
  split; assumption.
Qed.

Lemma Zdigits2_nonneg m : 0 <= Zdigits2 m.
Proof. destruct m; cbn; lia. Qed.

Lemma Zdigits2_lt m k : 0 <= m -> 0 <= k -> m < 2 ^ k -> Zdigits2 m <= k.
Proof.
  intros Hm Hk Hlt. destruct (Z.eq_dec m 0) as [-> | Hne]; [cbn; lia|].
  rewrite Zdigits2_log2 by lia.
  assert (Z.log2 m < k) by (apply Z.log2_lt_pow2; lia). lia.
Qed.

Lemma Zdigits2_gt m : 0 <= m -> m < 2 ^ Zdigits2 m.
Proof.
  intros Hm. destruct (Z.eq_dec m 0) as [-> | Hne]; [cbn; lia|].
  rewrite Zdigits2_log2 by lia.
  apply Z.log2_spec. lia.
Qed.

Lemma Zdigits2_le m : 0 < m -> 2 ^ (Zdigits2 m - 1) <= m.
Proof.
  intros Hm. rewrite Zdigits2_log2 by lia.
  replace (Z.log2 m + 1 - 1) with (Z.log2 m) by lia.
  apply Z.log2_spec. lia.
Qed.

Ltac bool_cases :=
  repeat match goal with
         | |- context [?a <=? ?b] => destruct (Z.leb_spec a b)
         | |- context [?a =? ?b] => destruct (Z.eqb_spec a b)
         end;
  cbn [negb andb orb].

(** One shift to the right halves the unit: the record then describes
    [N / (2 * D)]. *)
Lemma shr_1_inv mrs N D : loc_inv mrs N D -> loc_inv (shr_1 mrs) N (2 * D).
Proof.
  destruct mrs as [m r s]. unfold loc_inv. cbn [shr_m shr_r shr_s].
  intros (HD & Hm & HR & Hr & Hs). subst r s.
  destruct m as [| [p | p |] | p]; try lia; cbn [shr_1 shr_m shr_r shr_s];
    bool_cases; repeat split; try lia.
Qed.

Lemma pow2_xO p : 2 ^ Z.pos p~0 = 2 ^ Z.pos p * 2 ^ Z.pos p.
Proof.
  replace (Z.pos p~0) with (Z.pos p + Z.pos p) by lia.
  apply Z.pow_add_r; lia.
Qed.

Lemma pow2_xI p : 2 ^ Z.pos p~1 = 2 ^ Z.pos p * 2 ^ Z.pos p * 2.
Proof.
  replace (Z.pos p~1) with (Z.pos p~0 + 1) by lia.
  rewrite Z.pow_add_r, pow2_xO by lia. reflexivity.
Qed.

Lemma iter_shr_1_inv p : forall mrs N D,
  loc_inv mrs N D -> loc_inv (iter_pos shr_1 p mrs) N (2 ^ Zpos p * D).
Proof.
  induction p as [p IH | p IH |]; intros mrs N D H; cbn [iter_pos].
  - apply shr_1_inv in H. apply IH in H. apply IH in H.
    replace (2 ^ Z.pos p~1 * D) with (2 ^ Z.pos p * (2 ^ Z.pos p * (2 * D)));
      [exact H|].
    rewrite pow2_xI. ring.
  - apply IH in H. apply IH in H.
    replace (2 ^ Z.pos p~0 * D) with (2 ^ Z.pos p * (2 ^ Z.pos p * D));
      [exact H|].
    rewrite pow2_xO. ring.
  - apply shr_1_inv in H. exact H.
Qed.

(** The location that follows a Euclidean division is that of the
    quotient. *)
Lemma new_location_inv N D :
  0 <= N -> 0 < D ->
  loc_inv (shr_record_of_loc (N / D) (new_location D (N mod D))) N D.
Proof.
  intros HN HD.
  pose proof (Z.mod_pos_bound N D HD) as Hmod.
  pose proof (Z.div_mod N D ltac:(lia)) as Hdm.
  assert (HR : N - N / D * D = N mod D) by lia.
  assert (Hq : 0 <= N / D) by (apply Z.div_pos; lia).
  unfold new_location, new_location_even, new_location_odd.
  destruct (Z.even D) eqn:Hev.
  - destruct (Z.eqb_spec (N mod D) 0) as [H0 | H0];
      [| destruct (Z.compare_spec (2 * (N mod D)) D) as [Hc | Hc | Hc]];
      unfold loc_inv; cbn [shr_record_of_loc shr_m shr_r shr_s]; rewrite HR;
      repeat split; try lia; bool_cases; try lia; reflexivity.
  - assert (Hodd : Z.odd D = true) by (rewrite <- Z.negb_even, Hev; reflexivity).
    apply Z.odd_spec in Hodd. destruct Hodd as [k Hk].
    destruct (Z.eqb_spec (N mod D) 0) as [H0 | H0];
      [| destruct (Z.compare_spec (2 * (N mod D) + 1) D) as [Hc | Hc | Hc]];
      unfold loc_inv; cbn [shr_record_of_loc shr_m shr_r shr_s]; rewrite HR;
      repeat split; try lia; bool_cases; try lia; reflexivity.
Qed.

Lemma exact_inv m : 0 <= m -> loc_inv (shr_record_of_loc m loc_Exact) m 1.
Proof.
  intros Hm. unfold loc_inv; cbn [shr_record_of_loc shr_m shr_r shr_s].
  replace (m - m * 1) with 0 by lia. cbn. repeat split; lia.
Qed.

Lemma fexp_eq e : fexp Py.prec Py.emax e = Z.max (e - 53) (-1074).
Proof. reflexivity. Qed.

Lemma shr_m_of_loc m l : shr_m (shr_record_of_loc m l) = m.
Proof. destruct l as [| []]; reflexivity. Qed.

Lemma shr_fexp_inv mx ex lx N D :
  loc_inv (shr_record_of_loc mx lx) N D ->
  let e1 := Z.max ex (fexp Py.prec Py.emax (Zdigits2 mx + ex)) in
  exists mrs,
    shr_fexp Py.prec Py.emax mx ex lx = (mrs, e1) /\
    loc_inv mrs N (2 ^ (e1 - ex) * D) /\
    shr_m mrs < 2 ^ 53.
Proof.
  intros H e1.
  assert (Hmx : 0 <= mx /\ 0 <= N - mx * D < D /\ 0 < D).
  { destruct H as (HD & Hm & HR & _). rewrite shr_m_of_loc in *. lia. }
  destruct Hmx as (Hmx & HR & HD).
  pose proof (Zdigits2_gt mx Hmx) as Hd.
  pose proof (Zdigits2_nonneg mx) as Hd0.
  unfold shr_fexp, shr.
  assert (Hlt : forall mrs k, 0 <= k -> Zdigits2 mx <= k + 53 ->
            loc_inv mrs N (2 ^ k * D) -> shr_m mrs < 2 ^ 53).
  { intros mrs k Hk Hdk (HD' & Hm' & HR' & _).
    assert (Hp : 0 < 2 ^ k) by (apply Z.pow_pos_nonneg; lia).
    assert (Hmono : 2 ^ Zdigits2 mx <= 2 ^ (k + 53))
      by (apply Z.pow_le_mono_r; lia).
    rewrite Z.pow_add_r in Hmono by lia.
    assert (shr_m mrs * 2 ^ k < 2 ^ 53 * 2 ^ k) by nia.
    apply Z.mul_lt_mono_pos_r in H0; assumption. }
  destruct (fexp Py.prec Py.emax (Zdigits2 mx + ex) - ex) as [| p | p] eqn:Hn.
  - exists (shr_record_of_loc mx lx).
    assert (He : e1 = ex) by (unfold e1; lia).
    rewrite He. replace (ex - ex) with 0 by lia.
    rewrite Z.pow_0_r, Z.mul_1_l. repeat split; try apply H.
    apply (Hlt _ 0); [lia | | rewrite Z.pow_0_r, Z.mul_1_l; exact H].
    rewrite fexp_eq in Hn. lia.
  - exists (iter_pos shr_1 p (shr_record_of_loc mx lx)).
    assert (He : e1 = ex + Z.pos p) by (unfold e1; lia).
    rewrite He. replace (ex + Z.pos p - ex) with (Z.pos p) by lia.
    pose proof (iter_shr_1_inv p _ _ _ H) as Hi.
    repeat split; try apply Hi.
    apply (Hlt _ (Z.pos p)); [lia | | exact Hi].
    rewrite fexp_eq in Hn. lia.
  - exists (shr_record_of_loc mx lx).
    assert (He : e1 = ex) by (unfold e1; lia).
    rewrite He. replace (ex - ex) with 0 by lia.
    rewrite Z.pow_0_r, Z.mul_1_l. repeat split; try apply H.
    apply (Hlt _ 0); [lia | | rewrite Z.pow_0_r, Z.mul_1_l; exact H].
    rewrite fexp_eq in Hn. lia.
Qed.

(** Rounding to nearest, ties to even, is within half a unit. *)
Lemma round_nearest_even_inv mrs N D :
  loc_inv mrs N D ->
  let m1 := round_nearest_even (shr_m mrs) (loc_of_shr_record mrs) in
  shr_m mrs <= m1 <= shr_m mrs + 1 /\ 2 * Z.abs (m1 * D - N) <= D.
Proof.
  destruct mrs as [m r s]. unfold loc_inv. cbn [shr_m shr_r shr_s].
  intros (HD & Hm & HR & Hr & Hs).
  destruct r, s; cbn [loc_of_shr_record round_nearest_even];
    revert Hr Hs; bool_cases; intros Hr Hs; try discriminate;
    try destruct (Z.even m); split; try lia.
Qed.

(** What [binary_round_aux] returns for the fraction [N / D] in units of
    [2 ^ ex]: a mantissa [mr] below [2 ^ 53] and an exponent [er] (zero,
    finite or infinite according to them), within half a unit [2 ^ e1] of
    the fraction, where [e1] is the exponent the format prescribes for a
    number of that magnitude. *)
Lemma binary_round_aux_spec s mx ex lx N D :
  loc_inv (shr_record_of_loc mx lx) N D ->
  let e1 := Z.max ex (fexp Py.prec Py.emax (Zdigits2 mx + ex)) in
  exists mr er,
    binary_round_aux Py.prec Py.emax s mx ex lx =
      match mr with
      | Z0 => S754_zero s
      | Zpos m =>
          if er <=? Py.emax - Py.prec then S754_finite s m er else S754_infinity s
      | Zneg _ => S754_nan
      end /\
    0 <= mr < 2 ^ 53 /\
    (er = e1 \/ er = e1 + 1 /\ mr = 2 ^ 52) /\
    2 * Z.abs (mr * 2 ^ (er - ex) * D - N) <= 2 ^ (e1 - ex) * D.
Proof.
  intros H e1.
  destruct (shr_fexp_inv mx ex lx N D H) as (mrs & Hshr & Hinv & Hlt).
  fold e1 in Hshr, Hinv.
  unfold binary_round_aux. rewrite Hshr.
  pose proof (round_nearest_even_inv _ _ _ Hinv) as Hrn. cbn zeta in Hrn.
  set (m1 := round_nearest_even (shr_m mrs) (loc_of_shr_record mrs)) in *.
  destruct Hrn as (Hm1 & Herr).
  assert (Hm0 : 0 <= shr_m mrs) by apply Hinv.
  assert (He1 : -1074 <= e1 /\ ex <= e1)
    by (unfold e1; rewrite fexp_eq; lia).
  destruct (Z.eq_dec m1 (2 ^ 53)) as [Heq | Hne].
  - (* the mantissa overflowed into a 54th bit *)
    rewrite Heq. unfold shr_fexp.
    replace (Zdigits2 (2 ^ 53)) with 54 by reflexivity.
    rewrite fexp_eq. replace (Z.max (54 + e1 - 53) (-1074) - e1) with 1 by lia.
    cbn [shr shr_record_of_loc iter_pos].
    exists (2 ^ 52), (e1 + 1). split; [reflexivity|].
    split; [cbn; lia|]. split; [right; split; reflexivity|].
    replace (e1 + 1 - ex) with ((e1 - ex) + 1) by lia.
    rewrite Z.pow_add_r by lia.
    replace (2 ^ 52 * (2 ^ (e1 - ex) * 2 ^ 1) * D - N)
      with (m1 * (2 ^ (e1 - ex) * D) - N); [exact Herr|].
    rewrite Heq. change (2 ^ 53) with (2 ^ 52 * 2 ^ 1). ring.
  - assert (Hm1lt : m1 < 2 ^ 53) by lia.
    assert (Hd : Zdigits2 m1 <= 53) by (apply Zdigits2_lt; lia).
    pose proof (Zdigits2_nonneg m1) as Hd0.
    unfold shr_fexp, shr. rewrite fexp_eq.
    destruct (Z.max (Zdigits2 m1 + e1 - 53) (-1074) - e1) as [| p | p] eqn:Hn;
      try lia.
    + exists m1, e1. rewrite shr_m_of_loc. split; [reflexivity|].
      split; [lia|]. split; [left; reflexivity|].
      replace (m1 * 2 ^ (e1 - ex) * D) with (m1 * (2 ^ (e1 - ex) * D)) by ring.
      exact Herr.
    + exists m1, e1. rewrite shr_m_of_loc. split; [reflexivity|].
      split; [lia|]. split; [left; reflexivity|].
      replace (m1 * 2 ^ (e1 - ex) * D) with (m1 * (2 ^ (e1 - ex) * D)) by ring.
      exact Herr.
Qed.

(** ** The float operations of the planner *)

Lemma pos_iter_xO m k : Zpos (Pos.iter xO m k) = Zpos m * 2 ^ Zpos k.
Proof.
  induction k as [| k IH] using Pos.peano_ind.
  - cbn [Pos.iter]. rewrite Z.pow_1_r. lia.
  - rewrite Pos.iter_succ, Pos2Z.inj_xO, IH, Pos2Z.inj_succ, Z.pow_succ_r by lia.
    ring.
Qed.

Lemma div_eucl_eq a b : Z.div_eucl a b = (a / b, a mod b).
Proof. unfold Z.div, Z.modulo. destruct (Z.div_eucl a b); reflexivity. Qed.

(** The core of [SFdiv] on two positive integers: the quotient of
    [t * 2 ^ s] by [S], for a shift [s] that leaves at least 53 bits. *)
Lemma div_core_spec t S :
  0 < t -> 0 < S ->
  let s := - Z.min (fexp Py.prec Py.emax (Zdigits2 t - Zdigits2 S)) 0 in
  SFdiv_core_binary Py.prec Py.emax t 0 S 0 =
    (t * 2 ^ s / S, - s, new_location S ((t * 2 ^ s) mod S)).
Proof.
  intros Ht HS s. unfold SFdiv_core_binary.
  rewrite !Z.add_0_r, Z.sub_0_r.
  replace (0 - Z.min (fexp Py.prec Py.emax (Zdigits2 t - Zdigits2 S)) 0)
    with s by (unfold s; lia).
  replace (Z.min (fexp Py.prec Py.emax (Zdigits2 t - Zdigits2 S)) 0)
    with (- s) by (unfold s; lia).
  assert (Hs : 0 <= s) by (unfold s; lia).
  assert (Hm : match s with
               | 0 => t
               | Z.pos _ => Z.shiftl t s
               | Z.neg _ => 0
               end = t * 2 ^ s).
  { clearbody s. destruct s as [| p | p]; try lia.
    apply Z.shiftl_mul_pow2. lia. }
  rewrite Hm, div_eucl_eq. reflexivity.
Qed.

Lemma Zdigits2_ge m k : 0 <= k -> 2 ^ k <= m -> k + 1 <= Zdigits2 m.
Proof.
  intros Hk Hm.
  assert (0 < 2 ^ k) by (apply Z.pow_pos_nonneg; lia).
  rewrite Zdigits2_log2 by lia.
  apply Z.log2_le_pow2 in Hm; lia.
Qed.

(** [t / S] for [0 < t < 2 ^ 53]: a positive normal float within relative
    error [2 ^ -53] of the quotient. [s] is the scale of the statement: the
    float is compared with [t / S] after multiplication by [2 ^ s * S]. *)
Lemma int_truediv_spec t S :
  0 < t < 2 ^ 53 -> 0 < S < 2 ^ 1000 ->
  exists s m e,
    Py.int_truediv t S = Py.ok (S754_finite false m e) /\
    0 <= s <= 52 + Zdigits2 S /\ 0 <= e + s /\ e <= 54 /\ Zpos m < 2 ^ 53 /\
    2 ^ 53 * Z.abs (Zpos m * 2 ^ (e + s) * S - t * 2 ^ s) <= t * 2 ^ s.
Proof.
  intros Ht HS.
  unfold Py.int_truediv.
  destruct (Z.eqb_spec S 0) as [? | _]; [lia|].
  destruct (Z.eqb_spec t 0) as [? | _]; [lia|].
  unfold Py.exact_int.
  destruct (Z.ltb_spec t 0) as [? | _]; [lia|].
  destruct (Z.ltb_spec S 0) as [? | _]; [lia|].
  cbn [SFdiv xorb].
  rewrite !Z2Pos.id by lia. rewrite !Z.abs_eq by lia.
  rewrite (div_core_spec t S) by lia.
  set (s := - Z.min (fexp Py.prec Py.emax (Zdigits2 t - Zdigits2 S)) 0).
  (* the digit counts *)
  assert (Hdt : 1 <= Zdigits2 t <= 53).
  { split; [apply (Zdigits2_ge t 0); cbn; lia | apply Zdigits2_lt; lia]. }
  assert (HdS : 1 <= Zdigits2 S <= 1000).
  { split; [apply (Zdigits2_ge S 0); cbn; lia | apply Zdigits2_lt; lia]. }
  assert (Hs : s = 53 + Zdigits2 S - Zdigits2 t)
    by (unfold s; rewrite fexp_eq; lia).
  clearbody s.
  pose proof (Zdigits2_le t ltac:(lia)) as Htlo.
  pose proof (Zdigits2_gt t ltac:(lia)) as Hthi.
  pose proof (Zdigits2_le S ltac:(lia)) as HSlo.
  pose proof (Zdigits2_gt S ltac:(lia)) as HShi.
  assert (Hp : 0 < 2 ^ s) by (apply Z.pow_pos_nonneg; lia).
  (* the integer quotient has 53 or 54 bits *)
  assert (Hlo : 2 ^ 52 * S <= t * 2 ^ s).
  { assert (2 ^ 52 * 2 ^ Zdigits2 S = 2 ^ (Zdigits2 t - 1) * 2 ^ s).
    { rewrite <- !Z.pow_add_r by lia. f_equal. lia. }
    nia. }
  assert (Hhi : t * 2 ^ s < 2 ^ 54 * S).
  { assert (2 ^ 54 * 2 ^ (Zdigits2 S - 1) = 2 ^ Zdigits2 t * 2 ^ s).
    { rewrite <- !Z.pow_add_r by lia. f_equal. lia. }
    nia. }
  set (mz := t * 2 ^ s / S) in *.
  assert (Hmz : 2 ^ 52 <= mz < 2 ^ 54).
  { unfold mz. split.
    - apply Z.div_le_lower_bound; lia.
    - apply Z.div_lt_upper_bound; lia. }
  assert (Hmzm : mz * S <= t * 2 ^ s).
  { unfold mz. rewrite Z.mul_comm. apply Z.mul_div_le. lia. }
  assert (Hdz : 53 <= Zdigits2 mz <= 54).
  { split; [apply (Zdigits2_ge mz 52); lia | apply Zdigits2_lt; lia]. }
  pose proof (Zdigits2_le mz ltac:(lia)) as Hmzlo.
  destruct (binary_round_aux_spec false mz (- s)
              (new_location S ((t * 2 ^ s) mod S)) (t * 2 ^ s) S)
    as (mr & er & Hres & Hmr & Her & Herr).
  { apply new_location_inv; lia. }
  rewrite fexp_eq in Her, Herr.
  replace (Z.max (- s) (Z.max (Zdigits2 mz + - s - 53) (-1074)))
    with (Zdigits2 mz - 53 - s) in Her, Herr by lia.
  replace (Zdigits2 mz - 53 - s - - s) with (Zdigits2 mz - 53) in Herr by lia.
  assert (Hq : 2 ^ (Zdigits2 mz - 53) * 2 ^ 52 = 2 ^ (Zdigits2 mz - 1)).
  { rewrite <- Z.pow_add_r by lia. f_equal. lia. }
  assert (Hq0 : 0 < 2 ^ (Zdigits2 mz - 53)) by (apply Z.pow_pos_nonneg; lia).
  replace (er - - s) with (er + s) in Herr by lia.
  assert (Hbound : 2 ^ 53 * Z.abs (mr * 2 ^ (er + s) * S - t * 2 ^ s)
                   <= t * 2 ^ s).
  { change (2 ^ 53) with (2 ^ 52 * 2). nia. }
  assert (Hpos : 0 < mr).
  { destruct (Z.eq_dec mr 0) as [E0 | ]; [|lia].
    rewrite E0 in Hbound.
    replace (0 * 2 ^ (er + s) * S - t * 2 ^ s) with (- (t * 2 ^ s)) in Hbound
      by ring.
    rewrite Z.abs_opp, Z.abs_eq in Hbound by nia.
    change (2 ^ 53) with 9007199254740992 in Hbound. nia. }
  destruct mr as [| m | m]; try lia.
  exists s, m, er. rewrite Hres.
  destruct (Z.leb_spec er (Py.emax - Py.prec)) as [_ | Hbad];
    [| unfold Py.emax, Py.prec in Hbad; lia].
  repeat split; lia.
Qed.

(** [float(L)] for [0 < L < 2 ^ 53] is exact, with a 53-bit mantissa. *)
Lemma float_of_int_exact L :
  0 < L < 2 ^ 53 ->
  exists a m,
    Py.float_of_int L = Py.ok (S754_finite false m (- a)) /\
    0 <= a <= 52 /\ Zpos m = L * 2 ^ a /\ 2 ^ 52 <= Zpos m < 2 ^ 53.
Proof.
  intros HL. destruct L as [| p | p]; try lia.
  unfold Py.float_of_int. cbn [binary_normalize]. unfold binary_round.
  rewrite Z.add_0_r.
  assert (Hd : 1 <= Zdigits2 (Zpos p) <= 53).
  { split; [apply (Zdigits2_ge _ 0); cbn; lia | apply Zdigits2_lt; lia]. }
  pose proof (Zdigits2_le (Zpos p) ltac:(lia)) as Hlo.
  pose proof (Zdigits2_gt (Zpos p) ltac:(lia)) as Hhi.
  cbn [Zdigits2] in Hd, Hlo, Hhi.
  set (d := Zpos (digits2_pos p)) in *.
  set (a := 53 - d).
  assert (Hmz : exists mz,
             shl_align p 0 (fexp Py.prec Py.emax d) = (mz, - a) /\
             Zpos mz = Zpos p * 2 ^ a).
  { unfold shl_align. rewrite fexp_eq, Z.sub_0_r.
    replace (Z.max (d - 53) (-1074)) with (- a) by (unfold a; lia).
    destruct (- a) as [| k | k] eqn:Ha; try lia.
    - exists p. replace a with 0 by lia. split; [reflexivity | cbn; lia].
    - exists (Pos.iter xO p k). split; [reflexivity|].
      rewrite pos_iter_xO. f_equal. f_equal. lia. }
  destruct Hmz as (mz & Heq & Hval). rewrite Heq.
  assert (Hmzb : 2 ^ 52 <= Zpos mz < 2 ^ 53).
  { rewrite Hval.
    assert (2 ^ (d - 1) * 2 ^ a = 2 ^ 52)
      by (rewrite <- Z.pow_add_r by (unfold a; lia); f_equal; unfold a; lia).
    assert (2 ^ d * 2 ^ a = 2 ^ 53)
      by (rewrite <- Z.pow_add_r by (unfold a; lia); f_equal; unfold a; lia).
    assert (0 < 2 ^ a) by (apply Z.pow_pos_nonneg; unfold a; lia).
    nia. }
  assert (Hdz : Zdigits2 (Zpos mz) = 53).
  { apply Z.le_antisymm;
      [apply Zdigits2_lt; lia | apply (Zdigits2_ge _ 52); lia]. }
  destruct (binary_round_aux_spec false (Zpos mz) (- a) loc_Exact (Zpos mz) 1)
    as (mr & er & Hres & Hmr & Her & Herr).
  { apply exact_inv. lia. }
  rewrite Hdz, fexp_eq in Her, Herr.
  replace (Z.max (- a) (Z.max (53 + - a - 53) (-1074))) with (- a)
    in Her, Herr by (unfold a; lia).
  replace (- a - - a) with 0 in Herr by lia.
  rewrite Z.pow_0_r in Herr.
  assert (Hexact : mr * 2 ^ (er - - a) = Zpos mz) by lia.
  destruct Her as [-> | [-> ->]].
  - replace (- a - - a) with 0 in Hexact by lia.
    rewrite Z.pow_0_r, Z.mul_1_r in Hexact. subst mr.
    exists a, mz. rewrite Hres.
    destruct (Z.leb_spec (- a) (Py.emax - Py.prec)) as [_ | Hbad];
      [| unfold Py.emax, Py.prec, a in Hbad; lia].
    repeat split; try (unfold a; lia). exact Hval.
  - replace (- a + 1 - - a) with 1 in Hexact by lia.
    change (2 ^ 52 * 2 ^ 1) with (2 ^ 53) in Hexact. lia.
Qed.

(** The product of a positive normal float and a positive float, in the
    normal range: within relative error [2 ^ -53] of the exact product. *)
Lemma SFmul_spec mW eW mq eq :
  2 ^ 52 <= Zpos mW < 2 ^ 53 -> Zpos mq < 2 ^ 53 ->
  -1074 <= eW + eq <= 900 ->
  exists mp ep,
    SFmul Py.prec Py.emax (S754_finite false mW eW) (S754_finite false mq eq)
      = S754_finite false mp ep /\
    eW + eq <= ep /\
    2 ^ 53 * Z.abs (Zpos mp * 2 ^ (ep - (eW + eq)) - Zpos mW * Zpos mq)
      <= Zpos mW * Zpos mq.
Proof.
  intros HW Hq He. cbn [SFmul xorb].
  set (N := Zpos mW * Zpos mq). change (Zpos (mW * mq)) with N.
  set (ex := eW + eq) in *.
  assert (HN : 2 ^ 52 <= N < 2 ^ 106).
  { unfold N. change (2 ^ 106) with (2 ^ 53 * 2 ^ 53). split; nia. }
  assert (Hd : 53 <= Zdigits2 N <= 106).
  { split; [apply (Zdigits2_ge _ 52); lia | apply Zdigits2_lt; lia]. }
  pose proof (Zdigits2_le N ltac:(lia)) as Hlo.
  destruct (binary_round_aux_spec false N ex loc_Exact N 1)
    as (mr & er & Hres & Hmr & Her & Herr).
  { apply exact_inv. lia. }
  rewrite fexp_eq in Her, Herr.
  replace (Z.max ex (Z.max (Zdigits2 N + ex - 53) (-1074)))
    with (Zdigits2 N - 53 + ex) in Her, Herr by lia.
  replace (Zdigits2 N - 53 + ex - ex) with (Zdigits2 N - 53) in Herr by lia.
  assert (Hq2 : 2 ^ (Zdigits2 N - 53) * 2 ^ 52 = 2 ^ (Zdigits2 N - 1)).
  { rewrite <- Z.pow_add_r by lia. f_equal. lia. }
  assert (Hq0 : 0 < 2 ^ (Zdigits2 N - 53)) by (apply Z.pow_pos_nonneg; lia).
  assert (Hbound : 2 ^ 53 * Z.abs (mr * 2 ^ (er - ex) - N) <= N).
  { rewrite Z.mul_1_r in Herr. change (2 ^ 53) with (2 ^ 52 * 2). nia. }
  assert (Hpos : 0 < mr).
  { destruct (Z.eq_dec mr 0) as [E0 | ]; [|lia].
    rewrite E0 in Hbound.
    replace (0 * 2 ^ (er - ex) - N) with (- N) in Hbound by ring.
    rewrite Z.abs_opp, Z.abs_eq in Hbound by lia.
    change (2 ^ 53) with 9007199254740992 in Hbound. lia. }
  destruct mr as [| m | m]; try lia.
  exists m, er. rewrite Hres.
  destruct (Z.leb_spec er (Py.emax - Py.prec)) as [_ | Hbad];
    [| unfold Py.emax, Py.prec in Hbad; lia].
  repeat split; lia.
Qed.

(** [int(x)] on a positive float [m * 2 ^ (u - v)]. *)
Lemma int_of_float_pos m e u v :
  0 <= u -> 0 <= v -> e = u - v ->
  Py.int_of_float (S754_finite false m e) = Py.ok (Zpos m * 2 ^ u / 2 ^ v).
Proof.
  intros Hu Hv He. unfold Py.int_of_float. f_equal.
  assert (Hpu : 0 < 2 ^ u) by (apply Z.pow_pos_nonneg; lia).
  assert (Hpv : 0 < 2 ^ v) by (apply Z.pow_pos_nonneg; lia).
  destruct e as [| p | p].
  - assert (u = v) by lia. subst v. rewrite Z.shiftl_0_r.
    symmetry. apply Z.div_mul. lia.
  - rewrite Z.shiftl_mul_pow2 by lia.
    assert (u = Zpos p + v) by lia. subst u.
    rewrite Z.pow_add_r, Z.mul_assoc by lia.
    symmetry. apply Z.div_mul. lia.
  - rewrite Z.shiftr_div_pow2 by lia.
    assert (v = u + Zpos p) by lia. subst v.
    rewrite Z.pow_add_r by lia.
    rewrite (Z.mul_comm (2 ^ u) (2 ^ Zpos p)).
    rewrite Z.div_mul_cancel_r; lia.
Qed.

(** The long output side, [int(L * (t / S))], against the exact quotient:
    it is [floor (L * t / S)], or one less when [S] divides [L * t]. *)
Lemma long_side_spec L S t :
  0 < S -> S <= L -> 0 < t -> L * t < 2 ^ 51 ->
  exists out,
    (r <- Py.int_truediv t S;;
     p <- Py.int_mul_float L r;;
     Py.int_of_float p) = Py.ok out /\
    L * t / S - 1 <= out <= L * t / S /\
    ((L * t) mod S <> 0 -> out = L * t / S).
Proof.
  intros HS HSL Ht HLt.
  assert (HL : L < 2 ^ 51) by nia.
  assert (Ht' : t < 2 ^ 51) by nia.
  destruct (int_truediv_spec t S) as (s & mq & eq & Hdiv & Hs & Hb & Heq & Hmq & I1);
    [lia | lia |].
  destruct (float_of_int_exact L) as (a & mW & HW & Ha & HmW & HmWb); [lia|].
  assert (HdS : Zdigits2 S <= 51) by (apply Zdigits2_lt; lia).
  destruct (SFmul_spec mW (- a) mq eq) as (mp & ep & Hmul & Hep & I2);
    [lia | lia | lia |].
  set (b := eq + s) in *. set (c := ep - (- a + eq)) in *.
  assert (Hc : 0 <= c) by (unfold c; lia).
  exists (Zpos mp * 2 ^ (c + b) / 2 ^ (a + s)). split.
  { rewrite Hdiv. cbn [Py.bind Py.ok]. unfold Py.int_mul_float.
    rewrite HW. cbn [Py.bind Py.ok]. rewrite Hmul.
    apply int_of_float_pos; unfold c, b; lia. }
  (* the scaled quantities *)
  rewrite !Z.pow_add_r by lia.
  set (C := 2 ^ c) in *. set (B := 2 ^ b) in *.
  set (P := 2 ^ a) in *. set (Q := 2 ^ s) in *.
  assert (HC : 0 < C) by (apply Z.pow_pos_nonneg; lia).
  assert (HB : 0 < B) by (apply Z.pow_pos_nonneg; lia).
  assert (HP : 0 < P) by (apply Z.pow_pos_nonneg; lia).
  assert (HQ : 0 < Q) by (apply Z.pow_pos_nonneg; lia).
  set (A := Zpos mp * (C * B)). set (U := P * Q).
  assert (HU : 0 < U) by (unfold U; nia).
  set (E1 := Zpos mq * B * S - t * Q) in *.
  set (E2 := Zpos mp * C - Zpos mW * Zpos mq) in *.
  assert (Hdecomp : A * S - L * t * U = E2 * (B * S) + L * P * E1).
  { unfold A, U, E1, E2. rewrite HmW. ring. }
  assert (Hclose : Z.abs (A * S - L * t * U) < U).
  { rewrite Hdecomp.
    pose proof (Z.abs_triangle (E2 * (B * S)) (L * P * E1)) as Htri.
    rewrite !Z.abs_mul in Htri.
    rewrite (Z.abs_eq B), (Z.abs_eq S), (Z.abs_eq L), (Z.abs_eq P) in Htri
      by lia.
    set (x1 := Z.abs E1) in *. set (x2 := Z.abs E2) in *.
    assert (Hx1 : 0 <= x1) by apply Z.abs_nonneg.
    assert (Hx2 : 0 <= x2) by apply Z.abs_nonneg.
    assert (HE1 : E1 <= x1) by (unfold x1; lia).
    assert (H1 : 2 ^ 53 * (L * P * x1) <= L * t * U).
    { unfold U. nia. }
    assert (H2 : 2 ^ 53 * (x2 * (B * S)) <= L * t * U + L * P * x1).
    { assert (Zpos mW * Zpos mq * (B * S) = L * P * (t * Q + E1))
        by (unfold E1; rewrite HmW; ring).
      assert (2 ^ 53 * x2 * (B * S) <= Zpos mW * Zpos mq * (B * S))
        by (apply Z.mul_le_mono_nonneg_r; nia).
      unfold U. nia. }
    assert (H3 : L * t * U <= (2 ^ 51 - 1) * U) by nia.
    change (2 ^ 53) with 9007199254740992 in H1, H2.
    change (2 ^ 51) with 2251799813685248 in H3.
    lia. }
  fold A U.
  pose proof (Z.div_mod (L * t) S ltac:(lia)) as Hdm.
  pose proof (Z.mod_pos_bound (L * t) S HS) as Hf.
  set (n := L * t / S) in *. set (f := (L * t) mod S) in *.
  assert (Hlow : (n - 1) * U < A).
  { assert ((n - 1) * U * S < A * S) by nia. nia. }
  assert (Hupp : A < (n + 1) * U).
  { assert (A * S < (n + 1) * U * S) by nia. nia. }
  split; [split|].
  - apply Z.div_le_lower_bound; lia.
  - assert (A / U < n + 1) by (apply Z.div_lt_upper_bound; lia). lia.
  - intros Hne.
    assert (n * U <= A).
    { assert (n * U * S < A * S + S) by nia.
      assert (n * U * S <= A * S) by nia. nia. }
    apply Z.le_antisymm.
    + assert (A / U < n + 1) by (apply Z.div_lt_upper_bound; lia). lia.
    + apply Z.div_le_lower_bound; lia.
Qed.

(** ** The planner *)

Lemma output_dimensions_short_side width height target_resolution ow oh :
  output_dimensions width height target_resolution = Py.ok (ow, oh) ->
  (height < width -> oh = target_resolution) /\
  (width <= height -> ow = target_resolution).
Proof.
  unfold output_dimensions.
  destruct (Z.ltb_spec height width) as [Hlt | Hge]; intros H.
  - split; [intros _ | lia].
    destruct (Py.int_truediv target_resolution height) as [e | r];
      [discriminate|].
    cbn [Py.bind] in H.
    destruct (Py.int_mul_float width r) as [e | p]; [discriminate|].
    cbn [Py.bind] in H.
    destruct (Py.int_of_float p) as [e | o]; [discriminate|].
    cbn [Py.bind] in H. unfold Py.ok in H. congruence.
  - split; [lia | intros _].
    destruct (Py.int_truediv target_resolution width) as [e | r];
      [discriminate|].
    cbn [Py.bind] in H.
    destruct (Py.int_mul_float height r) as [e | p]; [discriminate|].
    cbn [Py.bind] in H.
    destruct (Py.int_of_float p) as [e | o]; [discriminate|].
    cbn [Py.bind] in H. unfold Py.ok in H. congruence.
Qed.

Lemma output_dimensions_long_side width height target_resolution :
  0 < width -> 0 < height -> 0 < target_resolution ->
  Z.max width height * target_resolution < 2 ^ 51 ->
  exists ow oh,
    output_dimensions width height target_resolution = Py.ok (ow, oh) /\
    (height < width ->
     width * target_resolution / height - 1 <= ow
       <= width * target_resolution / height /\
     ((width * target_resolution) mod height <> 0 ->
      ow = width * target_resolution / height)) /\
    (width <= height ->
     height * target_resolution / width - 1 <= oh
       <= height * target_resolution / width /\
     ((height * target_resolution) mod width <> 0 ->
      oh = height * target_resolution / width)).
Proof.
  intros Hw Hh Ht Hb. unfold output_dimensions.
  destruct (Z.ltb_spec height width) as [Hlt | Hge].
  - rewrite Z.max_l in Hb by lia.
    destruct (long_side_spec width height target_resolution)
      as (out & Hout & Hrange & Hexact); [lia | lia | lia | lia |].
    exists out, target_resolution. split.
    + destruct (Py.int_truediv target_resolution height) as [e | r];
        [discriminate|].
      cbn [Py.bind] in Hout |- *.
      destruct (Py.int_mul_float width r) as [e | p]; [discriminate|].
      cbn [Py.bind] in Hout |- *.
      rewrite Hout. reflexivity.
    + split; [intros _; split; assumption | lia].
  - rewrite Z.max_r in Hb by lia.
    destruct (long_side_spec height width target_resolution)
      as (out & Hout & Hrange & Hexact); [lia | lia | lia | lia |].
    exists target_resolution, out. split.
    + destruct (Py.int_truediv target_resolution width) as [e | r];
        [discriminate|].
      cbn [Py.bind] in Hout |- *.
      destruct (Py.int_mul_float height r) as [e | p]; [discriminate|].
      cbn [Py.bind] in Hout |- *.
      rewrite Hout. reflexivity.
    + split; [lia | intros _; split; assumption].
Qed.

(** The plan as a function of the output dimensions. *)
Lemma calculate_tile_settings_inv width height target_resolution ts ov bs :
  calculate_tile_settings width height target_resolution = Py.ok (ts, ov, bs) ->
  exists ow oh,
    output_dimensions width height target_resolution = Py.ok (ow, oh) /\
    ts = (if Z.max ow oh <=? 1024 then 512
          else if Z.max ow oh <=? 2048 then 512
          else if Z.max ow oh <=? 4096 then 384
          else 256) /\
    ov = Z.max 64 (ts / 4) /\
    bs = (if 40000000 <? ow * oh then 32
          else if 25000000 <? ow * oh then 24
          else if 16000000 <? ow * oh then 16
          else if 9000000 <? ow * oh then 8
          else 0).
Proof.
  unfold calculate_tile_settings.
  destruct (output_dimensions width height target_resolution)
    as [e | [ow oh]]; [discriminate|].
  cbn [Py.bind Py.ok]. intros H. injection H as <- <- <-.
  exists ow, oh. repeat split; reflexivity.
Qed.

(** The planner returns a plan on every input in the binary64 comfort
    zone. *)
Lemma calculate_tile_settings_returns width height target_resolution :
  0 < width -> 0 < height -> 0 < target_resolution ->
  Z.max width height * target_resolution < 2 ^ 51 ->
  exists plan,
    calculate_tile_settings width height target_resolution = Py.ok plan.
Proof.
  intros Hw Hh Ht Hb.
  destruct (output_dimensions_long_side _ _ _ Hw Hh Ht Hb)
    as (ow & oh & Hdim & _).
  unfold calculate_tile_settings. rewrite Hdim. cbn [Py.bind Py.ok].
  eexists. reflexivity.
Qed.

(** ** Claims about the planner *)

(** C1, as stated, fails: [int()] truncates. For a 7x4 image and target 65
    the long side is 7 * 65 / 4 = 113.75; the code returns 113, and the
    only integer nearest to 113.75 is 114. *)
Lemma output_width_is_not_rounded :
  output_dimensions 7 4 65 = Py.ok (113, 65) /\
  ~ nearest_integer (7 * 65) 4 113 /\
  (forall r, nearest_integer (7 * 65) 4 r -> r = 114).
Proof.
  split; [vm_compute; reflexivity|].
  unfold nearest_integer. split; [lia | intros r Hr; lia].
Qed.

(** Truncation can even lose a whole pixel when the quotient is an
    integer: a square 49x49 image with target 64 is planned as 64x63. *)
Lemma output_dimensions_square_49 :
  output_dimensions 49 49 64 = Py.ok (64, 63).
Proof. vm_compute. reflexivity. Qed.

(** C1 (amended): for width > 0, height > 0 and target_resolution >= 64,
    whenever the output dimensions are computed the shorter source side maps
    exactly to target_resolution; and as long as
    max(width, height) * target_resolution < 2^51 they are computed, the
    longer side being the proportional value truncated, not rounded:
    floor(long * target / short), or one less than that, which can only
    happen when short divides long * target. *)
Theorem output_dimensions_truncated width height target_resolution :
  0 < width -> 0 < height -> 64 <= target_resolution ->
  (forall ow oh,
      output_dimensions width height target_resolution = Py.ok (ow, oh) ->
      (height < width -> oh = target_resolution) /\
      (width <= height -> ow = target_resolution)) /\
  (Z.max width height * target_resolution < 2 ^ 51 ->
   exists ow oh,
     output_dimensions width height target_resolution = Py.ok (ow, oh) /\
     (height < width ->
      oh = target_resolution /\
      width * target_resolution / height - 1 <= ow
        <= width * target_resolution / height /\
      ((width * target_resolution) mod height <> 0 ->
       ow = width * target_resolution / height)) /\
     (width <= height ->
      ow = target_resolution /\
      height * target_resolution / width - 1 <= oh
        <= height * target_resolution / width /\
      ((height * target_resolution) mod width <> 0 ->
       oh = height * target_resolution / width))).
Proof.
  intros Hw Hh Ht. split.
  - intros ow oh H. exact (output_dimensions_short_side _ _ _ _ _ H).
  - intros Hb.
    destruct (output_dimensions_long_side width height target_resolution)
      as (ow & oh & Hdim & Hwide & Htall); try lia.
    destruct (output_dimensions_short_side _ _ _ _ _ Hdim) as [Hs1 Hs2].
    exists ow, oh. split; [exact Hdim|]. split; intros Hc.
    + split; [exact (Hs1 Hc) | exact (Hwide Hc)].
    + split; [exact (Hs2 Hc) | exact (Htall Hc)].
Qed.

Lemma output_dimensions_truncated_witness :
  exists ow oh,
    output_dimensions 1920 1080 1080 = Py.ok (ow, oh) /\
    (1080 < 1920 ->
     oh = 1080 /\
     1920 * 1080 / 1080 - 1 <= ow <= 1920 * 1080 / 1080 /\
     ((1920 * 1080) mod 1080 <> 0 -> ow = 1920 * 1080 / 1080)) /\
    (1920 <= 1080 ->
     ow = 1080 /\
     1080 * 1080 / 1920 - 1 <= oh <= 1080 * 1080 / 1920 /\
     ((1080 * 1080) mod 1920 <> 0 -> oh = 1080 * 1080 / 1920)).
Proof.
  apply (output_dimensions_truncated 1920 1080 1080); reflexivity || lia.
Defined.

(** C2: for every valid input the tile size is a step function of
    max_dim = max(out_width, out_height): 512 up to and including 1024 and
    2048, 384 from 2049 up to and including 4096, 256 from 4097 on. A plan
    exists whenever max(width, height) * target_resolution < 2^51. *)
Theorem tile_size_thresholds width height target_resolution :
  0 < width -> 0 < height -> 64 <= target_resolution ->
  (Z.max width height * target_resolution < 2 ^ 51 ->
   exists plan,
     calculate_tile_settings width height target_resolution = Py.ok plan) /\
  (forall tile_size tile_overlap blocks_to_swap,
      calculate_tile_settings width height target_resolution
        = Py.ok (tile_size, tile_overlap, blocks_to_swap) ->
      exists out_width out_height,
        output_dimensions width height target_resolution
          = Py.ok (out_width, out_height) /\
        let max_dim := Z.max out_width out_height in
        (max_dim <= 1024 -> tile_size = 512) /\
        (max_dim <= 2048 -> tile_size = 512) /\
        (2048 < max_dim <= 4096 -> tile_size = 384) /\
        (4096 < max_dim -> tile_size = 256) /\
        (max_dim = 2048 -> tile_size = 512) /\
        (max_dim = 2049 -> tile_size = 384) /\
        (max_dim = 4096 -> tile_size = 384) /\
        (max_dim = 4097 -> tile_size = 256)).
Proof.
  intros Hw Hh Ht. split.
  - intros Hb. apply calculate_tile_settings_returns; lia.
  - intros ts ov bs H.
    destruct (calculate_tile_settings_inv _ _ _ _ _ _ H)
      as (ow & oh & Hdim & Hts & _ & _).
    exists ow, oh. split; [exact Hdim|]. cbn zeta.
    destruct (Z.leb_spec (Z.max ow oh) 1024);
      destruct (Z.leb_spec (Z.max ow oh) 2048);
      destruct (Z.leb_spec (Z.max ow oh) 4096);
      repeat split; intros; lia.
Qed.

Lemma tile_size_thresholds_witness :
  (Z.max 2049 64 * 64 < 2 ^ 51 ->
   exists plan, calculate_tile_settings 2049 64 64 = Py.ok plan) /\
  (forall tile_size tile_overlap blocks_to_swap,
      calculate_tile_settings 2049 64 64
        = Py.ok (tile_size, tile_overlap, blocks_to_swap) ->
      exists out_width out_height,
        output_dimensions 2049 64 64 = Py.ok (out_width, out_height) /\
        let max_dim := Z.max out_width out_height in
        (max_dim <= 1024 -> tile_size = 512) /\
        (max_dim <= 2048 -> tile_size = 512) /\
        (2048 < max_dim <= 4096 -> tile_size = 384) /\
        (4096 < max_dim -> tile_size = 256) /\
        (max_dim = 2048 -> tile_size = 512) /\
        (max_dim = 2049 -> tile_size = 384) /\
        (max_dim = 4096 -> tile_size = 384) /\
        (max_dim = 4097 -> tile_size = 256)).
Proof. apply (tile_size_thresholds 2049 64 64); lia. Defined.

(** The boundaries of C2 on inputs that reach them: images 64 pixels high
    with target 64 keep their width as max_dim. *)
Lemma tile_size_boundary_inputs :
  calculate_tile_settings 1024 64 64 = Py.ok (512, 128, 0) /\
  calculate_tile_settings 2048 64 64 = Py.ok (512, 128, 0) /\
  calculate_tile_settings 2049 64 64 = Py.ok (384, 96, 0) /\
  calculate_tile_settings 4096 64 64 = Py.ok (384, 96, 0) /\
  calculate_tile_settings 4097 64 64 = Py.ok (256, 64, 0).
Proof. repeat split; vm_compute; reflexivity. Qed.

(** C3: for every valid input blocks_to_swap is a step function of
    total_pixels = out_width * out_height with strict comparisons:
    more than 40,000,000 gives 32, more than 25,000,000 gives 24, more than
    16,000,000 gives 16, more than 9,000,000 gives 8, anything else 0; so
    9,000,000 gives 0 and 9,000,001 gives 8. A plan exists whenever
    max(width, height) * target_resolution < 2^51. *)
Theorem blocks_to_swap_thresholds width height target_resolution :
  0 < width -> 0 < height -> 64 <= target_resolution ->
  (Z.max width height * target_resolution < 2 ^ 51 ->
   exists plan,
     calculate_tile_settings width height target_resolution = Py.ok plan) /\
  (forall tile_size tile_overlap blocks_to_swap,
      calculate_tile_settings width height target_resolution
        = Py.ok (tile_size, tile_overlap, blocks_to_swap) ->
      exists out_width out_height,
        output_dimensions width height target_resolution
          = Py.ok (out_width, out_height) /\
        let total_pixels := out_width * out_height in
        (40000000 < total_pixels -> blocks_to_swap = 32) /\
        (25000000 < total_pixels <= 40000000 -> blocks_to_swap = 24) /\
        (16000000 < total_pixels <= 25000000 -> blocks_to_swap = 16) /\
        (9000000 < total_pixels <= 16000000 -> blocks_to_swap = 8) /\
        (total_pixels <= 9000000 -> blocks_to_swap = 0) /\
        (total_pixels = 9000000 -> blocks_to_swap = 0) /\
        (total_pixels = 9000001 -> blocks_to_swap = 8) /\
        (total_pixels = 40000001 -> blocks_to_swap = 32)).
Proof.
  intros Hw Hh Ht. split.
  - intros Hb. apply calculate_tile_settings_returns; lia.
  - intros ts ov bs H.
    destruct (calculate_tile_settings_inv _ _ _ _ _ _ H)
      as (ow & oh & Hdim & _ & _ & Hbs).
    exists ow, oh. split; [exact Hdim|]. cbn zeta.
    destruct (Z.ltb_spec 40000000 (ow * oh));
      destruct (Z.ltb_spec 25000000 (ow * oh));
      destruct (Z.ltb_spec 16000000 (ow * oh));
      destruct (Z.ltb_spec 9000000 (ow * oh));
      repeat split; intros; lia.
Qed.

Lemma blocks_to_swap_thresholds_witness :
  (Z.max 3000 3000 * 3000 < 2 ^ 51 ->
   exists plan, calculate_tile_settings 3000 3000 3000 = Py.ok plan) /\
  (forall tile_size tile_overlap blocks_to_swap,
      calculate_tile_settings 3000 3000 3000
        = Py.ok (tile_size, tile_overlap, blocks_to_swap) ->
      exists out_width out_height,
        output_dimensions 3000 3000 3000 = Py.ok (out_width, out_height) /\
        let total_pixels := out_width * out_height in
        (40000000 < total_pixels -> blocks_to_swap = 32) /\
        (25000000 < total_pixels <= 40000000 -> blocks_to_swap = 24) /\
        (16000000 < total_pixels <= 25000000 -> blocks_to_swap = 16) /\
        (9000000 < total_pixels <= 16000000 -> blocks_to_swap = 8) /\
        (total_pixels <= 9000000 -> blocks_to_swap = 0) /\
        (total_pixels = 9000000 -> blocks_to_swap = 0) /\
        (total_pixels = 9000001 -> blocks_to_swap = 8) /\
        (total_pixels = 40000001 -> blocks_to_swap = 32)).
Proof. apply (blocks_to_swap_thresholds 3000 3000 3000); lia. Defined.

(** The boundaries of C3 on inputs that reach them: 3000x3000 pixels are
    exactly 9,000,000; 4000x4000 exactly 16,000,000 and 109x146789 one
    more. *)
Lemma blocks_to_swap_boundary_inputs :
  calculate_tile_settings 3000 3000 3000 = Py.ok (384, 96, 0) /\
  calculate_tile_settings 3001 3000 3000 = Py.ok (384, 96, 8) /\
  calculate_tile_settings 4000 4000 4000 = Py.ok (384, 96, 8) /\
  calculate_tile_settings 146789 109 109 = Py.ok (256, 64, 16).
Proof. repeat split; vm_compute; reflexivity. Qed.

(** C4: for every valid input tile_overlap = max(64, tile_size // 4): it is
    at least 64, and it is floor(tile_size / 4) whenever that exceeds 64.
    A plan exists whenever max(width, height) * target_resolution < 2^51. *)
Theorem tile_overlap_formula width height target_resolution :
  0 < width -> 0 < height -> 64 <= target_resolution ->
  (Z.max width height * target_resolution < 2 ^ 51 ->
   exists plan,
     calculate_tile_settings width height target_resolution = Py.ok plan) /\
  (forall tile_size tile_overlap blocks_to_swap,
      calculate_tile_settings width height target_resolution
        = Py.ok (tile_size, tile_overlap, blocks_to_swap) ->
      tile_overlap = Z.max 64 (tile_size / 4) /\
      64 <= tile_overlap /\
      (64 < tile_size / 4 -> tile_overlap = tile_size / 4)).
Proof.
  intros Hw Hh Ht. split.
  - intros Hb. apply calculate_tile_settings_returns; lia.
  - intros ts ov bs H.
    destruct (calculate_tile_settings_inv _ _ _ _ _ _ H)
      as (ow & oh & _ & _ & Hov & _).
    repeat split; lia.
Qed.

Lemma tile_overlap_formula_witness :
  (Z.max 1920 1080 * 1080 < 2 ^ 51 ->
   exists plan, calculate_tile_settings 1920 1080 1080 = Py.ok plan) /\
  (forall tile_size tile_overlap blocks_to_swap,
      calculate_tile_settings 1920 1080 1080
        = Py.ok (tile_size, tile_overlap, blocks_to_swap) ->
      tile_overlap = Z.max 64 (tile_size / 4) /\
      64 <= tile_overlap /\
      (64 < tile_size / 4 -> tile_overlap = tile_size / 4)).
Proof. apply (tile_overlap_formula 1920 1080 1080); lia. Defined.

(** C10: for every valid input the plan lies in fixed finite sets:
    tile_size in {256, 384, 512}, tile_overlap in {64, 96, 128},
    blocks_to_swap in {0, 8, 16, 24, 32}; and tile_overlap is at most half
    of tile_size. A plan exists whenever
    max(width, height) * target_resolution < 2^51. *)
Theorem plan_ranges width height target_resolution :
  0 < width -> 0 < height -> 64 <= target_resolution ->
  (Z.max width height * target_resolution < 2 ^ 51 ->
   exists plan,
     calculate_tile_settings width height target_resolution = Py.ok plan) /\
  (forall tile_size tile_overlap blocks_to_swap,
      calculate_tile_settings width height target_resolution
        = Py.ok (tile_size, tile_overlap, blocks_to_swap) ->
      In tile_size [256; 384; 512] /\
      In tile_overlap [64; 96; 128] /\
      In blocks_to_swap [0; 8; 16; 24; 32] /\
      tile_overlap <= tile_size / 2).
Proof.
  intros Hw Hh Ht. split.
  - intros Hb. apply calculate_tile_settings_returns; lia.
  - intros ts ov bs H.
    destruct (calculate_tile_settings_inv _ _ _ _ _ _ H)
      as (ow & oh & _ & Hts & Hov & Hbs).
    subst ov bs.
    destruct (Z.leb_spec (Z.max ow oh) 1024);
      destruct (Z.leb_spec (Z.max ow oh) 2048);
      destruct (Z.leb_spec (Z.max ow oh) 4096);
      subst ts;
      destruct (Z.ltb_spec 40000000 (ow * oh));
      destruct (Z.ltb_spec 25000000 (ow * oh));
      destruct (Z.ltb_spec 16000000 (ow * oh));
      destruct (Z.ltb_spec 9000000 (ow * oh));
      cbn; intuition lia.
Qed.

Lemma plan_ranges_witness :
  (Z.max 8000 6000 * 2160 < 2 ^ 51 ->
   exists plan, calculate_tile_settings 8000 6000 2160 = Py.ok plan) /\
  (forall tile_size tile_overlap blocks_to_swap,
      calculate_tile_settings 8000 6000 2160
        = Py.ok (tile_size, tile_overlap, blocks_to_swap) ->
      In tile_size [256; 384; 512] /\
      In tile_overlap [64; 96; 128] /\
      In blocks_to_swap [0; 8; 16; 24; 32] /\
      tile_overlap <= tile_size / 2).
Proof. apply (plan_ranges 8000 6000 2160); lia. Defined.

(** ** The command line *)

Local Open Scope string_scope.
Local Open Scope list_scope.

Lemma str_int_plain z : plain (Py.str_int z).
Proof.
  unfold plain, is_option, Py.str_int.
  destruct (Z.to_int z) as [d | d]; destruct d; try reflexivity;
    match goal with d' : Decimal.uint |- _ => destruct d'; reflexivity end.
Qed.

Lemma path_join_plain d n : plain d -> plain (path_join d n).
Proof.
  unfold plain, is_option, path_join.
  destruct d as [| c1 [| c2 r]]; cbn [append].
  - intros _. destruct n; reflexivity.
  - intros _. cbn. apply andb_false_r.
  - intros H; exact H.
Qed.

Lemma build_cmd_inv E image request input_path output_dir cmd :
  build_cmd E image request input_path output_dir = Py.ok cmd ->
  exists tile_size tile_overlap blocks_to_swap,
    calculate_tile_settings (PIL.width image) (PIL.height image)
      (resolution request)
    = Py.ok (tile_size, tile_overlap, blocks_to_swap) /\
    cmd =
      [ sys_executable E; path_join (SEEDVR2_REPO_DIR E) "inference_cli.py";
        input_path;
        "--output"; output_dir;
        "--resolution"; Py.str_int (resolution request);
        "--seed"; Py.str_int (seed request);
        "--color_correction"; color_correction request;
        "--batch_size"; "1" ]
      ++ (if (0 <? max_resolution request)%Z
          then ["--max_resolution"; Py.str_int (max_resolution request)]
          else [])
      ++ (if Py.float_gt_zero (input_noise_scale request)
          then ["--input_noise_scale";
                str_float E (input_noise_scale request)]
          else [])
      ++ (if Py.float_gt_zero (latent_noise_scale request)
          then ["--latent_noise_scale";
                str_float E (latent_noise_scale request)]
          else [])
      ++ [ "--vae_encode_tiled"; "--vae_decode_tiled";
           "--vae_encode_tile_size"; Py.str_int tile_size;
           "--vae_decode_tile_size"; Py.str_int tile_size;
           "--vae_encode_tile_overlap"; Py.str_int tile_overlap;
           "--vae_decode_tile_overlap"; Py.str_int tile_overlap ]
      ++ (if (0 <? blocks_to_swap)%Z
          then ["--blocks_to_swap"; Py.str_int blocks_to_swap;
                "--dit_offload_device"; "cpu"; "--swap_io_components"]
          else []).
Proof.
  unfold build_cmd.
  destruct (calculate_tile_settings (PIL.width image) (PIL.height image)
              (resolution request)) as [e | [[ts ov] bs]]; [discriminate|].
  cbn [Py.bind]. unfold Py.ok. intros H. injection H as <-.
  exists ts, ov, bs. split; [reflexivity|].
  destruct (0 <? max_resolution request)%Z,
    (Py.float_gt_zero (input_noise_scale request)),
    (Py.float_gt_zero (latent_noise_scale request)),
    (0 <? bs)%Z; reflexivity.
Qed.

Lemma plain_neq_option x flag : plain x -> is_option flag = true -> x <> flag.
Proof. unfold plain. intros Hx Hf ->. congruence. Qed.

Lemma not_in_tokens (flag : string) (l : list string) :
  Forall (fun x => x <> flag) l -> ~ In flag l.
Proof.
  intros HF Hin. rewrite Forall_forall in HF. exact (HF flag Hin eq_refl).
Qed.

Create HintDb plain discriminated.
#[local] Hint Resolve str_int_plain path_join_plain : plain.

(** A token differs from an option name: it is plain, or it is another
    literal. *)
Ltac other_token :=
  first [ discriminate
        | apply plain_neq_option; [solve [auto with plain] | reflexivity] ].

Ltac flag_absent :=
  apply not_in_tokens; repeat (constructor; [other_token|]); constructor.

Ltac flag_present := solve [repeat first [ apply in_eq | apply in_cons ]].

Lemma adjacent_cons (a flag value : string) (l : list string) :
  adjacent flag value l -> adjacent flag value (a :: l).
Proof.
  intros (l1 & l2 & ->). exists (a :: l1), l2. reflexivity.
Qed.

Lemma adjacent_head (flag value : string) (l : list string) : adjacent flag value (flag :: value :: l).
Proof. exists [], l. reflexivity. Qed.

Ltac adjacent_search :=
  solve [repeat first [ apply adjacent_head | apply adjacent_cons ]].

(** C5, as stated, fails: the color-correction value is passed through
    unchecked, so a request can put the text of an option into the list.
    With color_correction = "--max_resolution" and max_resolution = 0 the
    list contains the max-resolution flag. *)
Lemma color_correction_can_spell_a_flag :
  let request :=
    {| name := "job"; resolution := 1080; max_resolution := 0; seed := 42;
       color_correction := "--max_resolution";
       input_noise_scale := S754_zero false;
       latent_noise_scale := S754_zero false;
       image_base64 := "" |} in
  exists cmd,
    build_cmd (Stub.externals Stub.hanging_tool Stub.nothing_locked)
      Stub.image request "/tmp/tmpk3v9/input.png" "/tmp/tmpk3v9/output"
    = Py.ok cmd /\
    In "--max_resolution" cmd /\ ~ (0 < max_resolution request)%Z.
Proof.
  cbn zeta. eexists. split; [vm_compute; reflexivity|].
  split; [flag_present | cbn; lia].
Qed.

(** C5 (amended): for every request whose color_correction value does not
    itself begin with "--", in an environment whose paths and float
    renderings do not either, the constructed argument list contains the
    max-resolution, input-noise-scale and latent-noise-scale flags exactly
    when the respective value is > 0 (then followed by that value), and it
    always contains the tiled-encode and tiled-decode flags and the plan's
    tile_size and tile_overlap for both encode and decode. *)
Theorem conditional_and_tiling_flags E tmpdir image request cmd :
  plain_environment E tmpdir ->
  plain (color_correction request) ->
  build_cmd E image request (path_join tmpdir "input.png")
    (path_join tmpdir "output") = Py.ok cmd ->
  (In "--max_resolution" cmd <-> (0 < max_resolution request)%Z) /\
  (In "--input_noise_scale" cmd <->
   Py.float_gt_zero (input_noise_scale request) = true) /\
  (In "--latent_noise_scale" cmd <->
   Py.float_gt_zero (latent_noise_scale request) = true) /\
  ((0 < max_resolution request)%Z ->
   adjacent "--max_resolution" (Py.str_int (max_resolution request)) cmd) /\
  (Py.float_gt_zero (input_noise_scale request) = true ->
   adjacent "--input_noise_scale" (str_float E (input_noise_scale request))
     cmd) /\
  (Py.float_gt_zero (latent_noise_scale request) = true ->
   adjacent "--latent_noise_scale" (str_float E (latent_noise_scale request))
     cmd) /\
  In "--vae_encode_tiled" cmd /\ In "--vae_decode_tiled" cmd /\
  exists tile_size tile_overlap blocks_to_swap,
    calculate_tile_settings (PIL.width image) (PIL.height image)
      (resolution request)
    = Py.ok (tile_size, tile_overlap, blocks_to_swap) /\
    adjacent "--vae_encode_tile_size" (Py.str_int tile_size) cmd /\
    adjacent "--vae_decode_tile_size" (Py.str_int tile_size) cmd /\
    adjacent "--vae_encode_tile_overlap" (Py.str_int tile_overlap) cmd /\
    adjacent "--vae_decode_tile_overlap" (Py.str_int tile_overlap) cmd.
Proof.
  intros (Hexe & Hrepo & Htmp & Hfloat) Hcc Hcmd.
  destruct (build_cmd_inv _ _ _ _ _ _ Hcmd) as (ts & ov & bs & Hplan & ->).
  destruct (Z.ltb_spec 0 (max_resolution request)) as [Hmax | Hmax];
    destruct (Py.float_gt_zero (input_noise_scale request)) eqn:Hin;
    destruct (Py.float_gt_zero (latent_noise_scale request)) eqn:Hlat;
    destruct (0 <? bs)%Z;
    cbn [app];
    (split; [split; [intros Hc; first [assumption | exfalso; revert Hc; flag_absent]
                    | intros Hc; first [flag_present | lia] ] |]);
    (split; [split; [intros Hc; first [reflexivity | exfalso; revert Hc; flag_absent]
                    | intros Hc; first [flag_present | discriminate] ] |]);
    (split; [split; [intros Hc; first [reflexivity | exfalso; revert Hc; flag_absent]
                    | intros Hc; first [flag_present | discriminate] ] |]);
    (split; [intros Hc; first [adjacent_search | lia] |]);
    (split; [intros Hc; first [adjacent_search | discriminate] |]);
    (split; [intros Hc; first [adjacent_search | discriminate] |]);
    (split; [flag_present |]);
    (split; [flag_present |]);
    exists ts, ov, bs; (split; [exact Hplan|]);
    repeat split; adjacent_search.
Qed.

Lemma stub_environment_plain run lk :
  plain_environment (Stub.externals run lk) "/tmp/tmpk3v9".
Proof. repeat split. Qed.

Lemma conditional_and_tiling_flags_witness :
  exists cmd,
    build_cmd (Stub.externals Stub.hanging_tool Stub.nothing_locked)
      Stub.image Stub.request
      (path_join "/tmp/tmpk3v9" "input.png")
      (path_join "/tmp/tmpk3v9" "output") = Py.ok cmd /\
    (In "--max_resolution" cmd <-> (0 < max_resolution Stub.request)%Z) /\
    In "--vae_encode_tiled" cmd /\ In "--vae_decode_tiled" cmd.
Proof.
  eexists. split; [vm_compute; reflexivity|].
  destruct (conditional_and_tiling_flags
              (Stub.externals Stub.hanging_tool Stub.nothing_locked)
              "/tmp/tmpk3v9" Stub.image Stub.request _
              (stub_environment_plain _ _) eq_refl eq_refl)
    as (H1 & _ & _ & _ & _ & _ & H7 & H8 & _).
  exact (conj H1 (conj H7 H8)).
Defined.

(** C6, as stated, fails for the same reason as C5: with
    color_correction = "--swap_io_components" on a small image the command
    contains the I/O-component swap flag although blocks_to_swap = 0 and the
    block-swap count is absent. *)
Lemma offload_flag_without_block_swap :
  let request :=
    {| name := "job"; resolution := 1080; max_resolution := 0; seed := 42;
       color_correction := "--swap_io_components";
       input_noise_scale := S754_zero false;
       latent_noise_scale := S754_zero false;
       image_base64 := "" |} in
  exists cmd,
    calculate_tile_settings (PIL.width Stub.image) (PIL.height Stub.image)
      (resolution request) = Py.ok (512, 128, 0)%Z /\
    build_cmd (Stub.externals Stub.hanging_tool Stub.nothing_locked)
      Stub.image request "/tmp/tmpk3v9/input.png" "/tmp/tmpk3v9/output"
    = Py.ok cmd /\
    In "--swap_io_components" cmd /\ ~ In "--blocks_to_swap" cmd.
Proof.
  cbn zeta. eexists. split; [vm_compute; reflexivity|].
  split; [vm_compute; reflexivity|].
  split; [flag_present|].
  apply not_in_tokens. repeat (constructor; [discriminate|]). constructor.
Qed.

(** C6 (amended): for every request whose color_correction value does not
    itself begin with "--", in an environment whose paths and float
    renderings do not either, the three offload arguments travel together:
    the command contains the block-swap flag, the offload-device flag and
    the I/O-component swap flag exactly when the plan's blocks_to_swap > 0,
    and then it ends with the block-swap count, the offload device "cpu"
    and the swap flag; when blocks_to_swap = 0 none of the three appears. *)
Theorem offload_arguments_travel_together E tmpdir image request cmd :
  plain_environment E tmpdir ->
  plain (color_correction request) ->
  build_cmd E image request (path_join tmpdir "input.png")
    (path_join tmpdir "output") = Py.ok cmd ->
  exists tile_size tile_overlap blocks_to_swap,
    calculate_tile_settings (PIL.width image) (PIL.height image)
      (resolution request)
    = Py.ok (tile_size, tile_overlap, blocks_to_swap) /\
    (In "--blocks_to_swap" cmd <-> (0 < blocks_to_swap)%Z) /\
    (In "--dit_offload_device" cmd <-> (0 < blocks_to_swap)%Z) /\
    (In "--swap_io_components" cmd <-> (0 < blocks_to_swap)%Z) /\
    ((0 < blocks_to_swap)%Z ->
     exists front,
       cmd = front ++ ["--blocks_to_swap"; Py.str_int blocks_to_swap;
                       "--dit_offload_device"; "cpu";
                       "--swap_io_components"]) /\
    (blocks_to_swap = 0%Z ->
     ~ In "--blocks_to_swap" cmd /\ ~ In "--dit_offload_device" cmd /\
     ~ In "--swap_io_components" cmd).
Proof.
  intros (Hexe & Hrepo & Htmp & Hfloat) Hcc Hcmd.
  destruct (build_cmd_inv _ _ _ _ _ _ Hcmd) as (ts & ov & bs & Hplan & Heq).
  exists ts, ov, bs. split; [exact Hplan|].
  assert (Hiff : forall flag,
             In flag ["--blocks_to_swap"; "--dit_offload_device";
                      "--swap_io_components"] ->
             (In flag cmd <-> (0 < bs)%Z)).
  { intros flag Hflag. subst cmd.
    destruct (0 <? max_resolution request)%Z;
      destruct (Py.float_gt_zero (input_noise_scale request));
      destruct (Py.float_gt_zero (latent_noise_scale request));
      destruct (Z.ltb_spec 0 bs) as [Hbs | Hbs];
      cbn [app];
      destruct Hflag as [<- | [<- | [<- | []]]];
      (split; [intros Hc; first [assumption | exfalso; revert Hc; flag_absent]
              | intros Hc; first [flag_present | lia] ]). }
  split; [apply Hiff; flag_present|].
  split; [apply Hiff; flag_present|].
  split; [apply Hiff; flag_present|].
  split.
  - intros Hbs. apply Z.ltb_lt in Hbs. rewrite Hbs in Heq.
    eexists. rewrite Heq. rewrite !app_assoc. reflexivity.
  - intros Hbs.
    repeat split; intros Hc; apply Hiff in Hc; try lia; flag_present.
Qed.

Lemma offload_arguments_travel_together_witness :
  exists tile_size tile_overlap blocks_to_swap cmd,
    calculate_tile_settings 8000 8000 8000
    = Py.ok (tile_size, tile_overlap, blocks_to_swap) /\
    (0 < blocks_to_swap)%Z /\
    (In "--blocks_to_swap" cmd <-> (0 < blocks_to_swap)%Z) /\
    (In "--dit_offload_device" cmd <-> (0 < blocks_to_swap)%Z) /\
    (In "--swap_io_components" cmd <-> (0 < blocks_to_swap)%Z).
Proof.
  pose (big := {| PIL.width := 8000; PIL.height := 8000;
                  PIL.pixels := [] |}).
  pose (request :=
          {| name := "job"; resolution := 8000; max_resolution := 0;
             seed := 42; color_correction := "lab";
             input_noise_scale := S754_zero false;
             latent_noise_scale := S754_zero false;
             image_base64 := "" |}).
  destruct (offload_arguments_travel_together
              (Stub.externals Stub.hanging_tool Stub.nothing_locked)
              "/tmp/tmpk3v9" big request
              ltac:(let c := eval vm_compute in
                      (build_cmd
                         (Stub.externals Stub.hanging_tool Stub.nothing_locked)
                         big request (path_join "/tmp/tmpk3v9" "input.png")
                         (path_join "/tmp/tmpk3v9" "output")) in
                    match c with inr ?l => exact l end)
              (stub_environment_plain _ _) eq_refl
              ltac:(vm_compute; reflexivity))
    as (ts & ov & bs & Hplan & H1 & H2 & H3 & _ & _).
  exists ts, ov, bs. eexists.
  split; [exact Hplan|].
  split; [|exact (conj H1 (conj H2 H3))].
  cbn in Hplan. vm_compute in Hplan. injection Hplan as _ _ <-. reflexivity.
Defined.

(** ** The request validator *)

(** C9: a target resolution below 64, or a missing or null one, never
    reaches the planner or the command builder as it is: an integer, a
    boolean or a float below 64, [null] and an absent key are replaced by
    the default 1080, a value that cannot be compared with 64 is rejected;
    so every request that is accepted carries a resolution >= 64, and that
    is the value the planner is called with and the command line carries. *)
Theorem resolution_at_least_64 int_of raw rest :
  (forall request,
      parse_request int_of raw rest = Py.ok request ->
      (64 <= resolution request)%Z /\
      forall E image input_path output_dir cmd,
        build_cmd E image request input_path output_dir = Py.ok cmd ->
        adjacent "--resolution" (Py.str_int (resolution request)) cmd /\
        exists plan,
          calculate_tile_settings (PIL.width image) (PIL.height image)
            (resolution request) = Py.ok plan) /\
  (raw = None \/ raw = Some VNone \/
   (exists z, raw = Some (VInt z) /\ (z < 64)%Z) \/
   (exists b, raw = Some (VBool b)) \/
   (exists x, raw = Some (VFloat x) /\ Py.float_lt_int x 64 = true) ->
   exists request,
     parse_request int_of raw rest = Py.ok request /\
     resolution request = 1080%Z) /\
  (forall z, raw = Some (VInt z) -> (64 <= z)%Z ->
     exists request,
       parse_request int_of raw rest = Py.ok request /\
       resolution request = z) /\
  (forall s, raw = Some (VStr s) ->
     parse_request int_of raw rest = Py.raise Py.TypeError).
Proof.
  split; [|split; [|split]].
  - intros request Hparse. split.
    + unfold parse_request in Hparse.
      destruct (resolution_field int_of raw) as [e | r] eqn:Hr;
        [discriminate|].
      cbn [Py.bind] in Hparse. unfold Py.ok in Hparse.
      injection Hparse as <-. cbn [resolution].
      unfold resolution_field in Hr.
      destruct (ensure_minimum_resolution _) as [e | v]; [discriminate|].
      cbn [Py.bind] in Hr. unfold int_field_ge in Hr.
      destruct (match v with
                | VBool b => Py.ok (if b then 1%Z else 0%Z)
                | VInt z => Py.ok z
                | VFloat x => int_of x
                | _ => Py.raise Py.TypeError
                end) as [e | z]; [discriminate|].
      cbn [Py.bind] in Hr.
      destruct (Z.leb_spec 64 z); [|discriminate].
      unfold Py.ok in Hr. injection Hr as <-. assumption.
    + intros E image input_path output_dir cmd Hcmd.
      destruct (build_cmd_inv _ _ _ _ _ _ Hcmd) as (ts & ov & bs & Hplan & ->).
      split; [adjacent_search | eexists; exact Hplan].
  - intros [-> | [-> | [(z & -> & Hz) | [(b & ->) | (x & -> & Hx)]]]];
      unfold parse_request, resolution_field, ensure_minimum_resolution,
        lt_int; cbn [Py.bind Py.ok].
    + eexists. split; reflexivity.
    + eexists. split; reflexivity.
    + destruct (Z.ltb_spec z 64); [|lia]. eexists. split; reflexivity.
    + destruct b; eexists; split; reflexivity.
    + rewrite Hx. eexists. split; reflexivity.
  - intros z -> Hz.
    unfold parse_request, resolution_field, ensure_minimum_resolution,
      lt_int, int_field_ge; cbn [Py.bind Py.ok].
    destruct (Z.ltb_spec z 64); [lia|]. cbn [Py.bind Py.ok].
    destruct (Z.leb_spec 64 z); [|lia]. eexists. split; reflexivity.
  - intros s ->. reflexivity.
Qed.

(** ** The file system *)

Lemma path_exists_In p w :
  path_exists p w = true <-> In p (map fst w).
Proof.
  unfold path_exists, lookup_path.
  induction w as [| [q n] w IH]; cbn [find map fst In].
  - split; [discriminate | intros []].
  - destruct (String.eqb_spec q p) as [-> | Hne].
    + split; [intros _; left; reflexivity | reflexivity].
    + rewrite IH. split; [intros H; right; exact H | intros [H | H]];
        [congruence | exact H].
Qed.

Lemma glob_png_spec d w p :
  In p (glob_png d w) <->
  In p (map fst w) /\
  exists n, child_name d p = Some n /\ ends_with ".png" n = true.
Proof.
  unfold glob_png. rewrite filter_In.
  split; intros [Hin H]; (split; [exact Hin|]).
  - destruct (child_name d p) as [n |]; [|discriminate].
    exists n. split; [reflexivity | exact H].
  - destruct H as (n & -> & H). exact H.
Qed.

(** The head of a filtered list is the first element that passes. *)
Lemma filter_head {A} (f : A -> bool) l x r :
  filter f l = x :: r ->
  exists before after,
    l = before ++ x :: after /\ f x = true /\
    Forall (fun y => f y = false) before.
Proof.
  induction l as [| a l IH]; cbn [filter]; [discriminate|].
  destruct (f a) eqn:Ha.
  - intros H. injection H as <- <-.
    exists [], l. repeat split; [exact Ha | constructor].
  - intros H. destruct (IH H) as (b & c & -> & Hx & HF).
    exists (a :: b), c. repeat split; [exact Hx | constructor; assumption].
Qed.

Lemma rmtree_survivors_spec lk d w p :
  In p (map fst (rmtree_survivors lk d w)) ->
  In p (map fst w) /\
  (is_under d p = true ->
   exists q, In q (map fst w) /\ lk q = true /\ is_under p q = true).
Proof.
  unfold rmtree_survivors. rewrite in_map_iff.
  intros ([p' n] & <- & Hin). apply filter_In in Hin.
  destruct Hin as [Hin Hkeep]. cbn [fst] in *. split.
  - apply in_map_iff. exists (p', n). split; [reflexivity | exact Hin].
  - intros Hunder. rewrite Hunder in Hkeep. cbn [negb orb] in Hkeep.
    apply existsb_exists in Hkeep. destruct Hkeep as ([q m] & Hq & Hlk).
    apply andb_true_iff in Hlk. destruct Hlk as [Hlk Hqp]. cbn [fst] in *.
    exists q. repeat split; try assumption.
    apply in_map_iff. exists (q, m). split; [reflexivity | exact Hq].
Qed.

Lemma rmtree_survivors_outside lk d w p :
  is_under d p = false ->
  In p (map fst w) -> In p (map fst (rmtree_survivors lk d w)).
Proof.
  unfold rmtree_survivors. rewrite !in_map_iff.
  intros Hout ([p' n] & <- & Hin). exists (p', n). split; [reflexivity|].
  apply filter_In. split; [exact Hin|]. cbn [fst] in *.
  rewrite Hout. reflexivity.
Qed.

(** ** The invoker *)

Lemma stage_and_run_zero_exit E tmpdir image request w0 w1 result :
  stage_and_run E tmpdir image request w0 = (w1, Py.ok result) ->
  returncode result = 0%Z.
Proof.
  unfold stage_and_run, mbind.
  destruct (mkdir tmpdir "output" w0) as [wa [e | []]]; [discriminate|].
  destruct (image_save E image (path_join tmpdir "input.png") wa)
    as [wb [e | []]]; [discriminate|].
  unfold lift.
  destruct (build_cmd E image request (path_join tmpdir "input.png")
              (path_join tmpdir "output")) as [e | cmd]; [discriminate|].
  destruct (subprocess_run E _ wb) as [wc [e | cp]]; [discriminate|].
  destruct (Z.eqb_spec (returncode cp) 0) as [Hz | Hnz]; cbn [negb].
  - unfold ret, Py.ok. intros H. injection H as _ <-. exact Hz.
  - unfold throw, Py.raise, Py.ok. discriminate.
Qed.

(** A non-zero exit code ends the attempt with the tool's diagnostics. *)
Lemma stage_and_run_nonzero_exit E tmpdir image request w0 wa wb cmd wc cp :
  mkdir tmpdir "output" w0 = (wa, Py.ok tt) ->
  image_save E image (path_join tmpdir "input.png") wa = (wb, Py.ok tt) ->
  build_cmd E image request (path_join tmpdir "input.png")
    (path_join tmpdir "output") = Py.ok cmd ->
  subprocess_run E
    {| args := cmd; cwd := SEEDVR2_REPO_DIR E; timeout := 7200;
       env_extra := [("PYTHONIOENCODING", "utf-8");
                     ("PYTHONLEGACYWINDOWSSTDIO", "0")];
       encoding := "utf-8"; errors := "replace" |} wb = (wc, Py.ok cp) ->
  returncode cp <> 0%Z ->
  stage_and_run E tmpdir image request w0 =
    (wc, Py.raise (Py.RuntimeError
                     ("CLI failed: " ++ Py.str_or (stderr cp) (stdout cp))%string)).
Proof.
  intros Hmk Hsave Hcmd Hrun Hrc.
  unfold stage_and_run, mbind. rewrite Hmk, Hsave. unfold lift.
  rewrite Hcmd. unfold Py.ok in *. rewrite Hrun.
  destruct (Z.eqb_spec (returncode cp) 0); [contradiction | reflexivity].
Qed.

(** C7, as stated, fails: the fallback scan matches [*.png] only. When the
    tool exits with code zero and leaves [result.jpg], an image file, in the
    output directory, no artifact is found and the attempt fails. *)
Lemma jpeg_output_is_not_found :
  let E := Stub.externals
             (Stub.tool 0 [("/tmp/tmpk3v9/output/result.jpg", File [xff; xd8])])
             Stub.nothing_locked in
  let w0 := [("/tmp", Dir); ("/tmp/tmpk3v9", Dir)] in
  exists w1,
    try_block E "/tmp/tmpk3v9" Stub.image Stub.request w0 =
      (w1, Py.raise (Py.RuntimeError "No output file found. CLI output: done"))
    /\ path_exists "/tmp/tmpk3v9/output/result.jpg" w1 = true
    /\ child_name "/tmp/tmpk3v9/output" "/tmp/tmpk3v9/output/result.jpg"
       = Some "result.jpg"
    /\ is_image_name "result.jpg" = true.
Proof.
  cbn zeta. eexists. split; [vm_compute; reflexivity|].
  repeat split; vm_compute; reflexivity.
Qed.

(** When nothing is found the two directories are listed before the error
    is raised: with the scratch directory still in place, that is the error
    of lines 313-318. *)
Lemma find_output_nothing tmpdir result w :
  path_exists (path_join (path_join tmpdir "output") "input.png") w = false ->
  lookup_path tmpdir w = Some Dir ->
  lookup_path (path_join tmpdir "output") w = None \/
  (lookup_path (path_join tmpdir "output") w = Some Dir /\
   glob_png (path_join tmpdir "output") w = []) ->
  find_output tmpdir result w =
    (w, Py.raise (Py.RuntimeError
                    ("No output file found. CLI output: "
                     ++ stdout result)%string)).
Proof.
  intros Hex Htmp Hout. unfold find_output. rewrite Hex.
  assert (Hfiles : (if path_exists (path_join tmpdir "output") w
                    then glob_png (path_join tmpdir "output") w
                    else []) = []).
  { unfold path_exists.
    destruct Hout as [-> | [-> ->]]; reflexivity. }
  rewrite Hfiles. unfold mbind, iterdir at 1. rewrite Htmp.
  unfold path_exists, iterdir.
  destruct Hout as [-> | [-> _]]; reflexivity.
Qed.

(** C7 (amended): when the external process exits with code zero, the
    invoker takes the artifact at the deterministic path
    [output/input.png] if it exists; otherwise, if the output directory
    exists, it scans it for entries named [*.png] (not any image file) and
    takes the first match in listing order; when there is none, and the
    scratch directory is still there to be listed, it fails with an error
    whose message carries the captured standard output. *)
Theorem output_discovery E tmpdir image request w0 w1 result :
  stage_and_run E tmpdir image request w0 = (w1, Py.ok result) ->
  let output_dir := path_join tmpdir "output" in
  let expected := path_join output_dir "input.png" in
  returncode result = 0%Z /\
  (path_exists expected w1 = true ->
   try_block E tmpdir image request w0 = load_output E expected w1) /\
  (path_exists expected w1 = false -> path_exists output_dir w1 = true ->
   forall first rest,
     glob_png output_dir w1 = first :: rest ->
     try_block E tmpdir image request w0 = load_output E first w1 /\
     (exists n, child_name output_dir first = Some n /\
                ends_with ".png" n = true) /\
     exists before after,
       map fst w1 = before ++ first :: after /\
       Forall (fun p => forall n, child_name output_dir p = Some n ->
                                  ends_with ".png" n = false) before) /\
  (path_exists expected w1 = false ->
   lookup_path tmpdir w1 = Some Dir ->
   lookup_path output_dir w1 = None \/
   (lookup_path output_dir w1 = Some Dir /\ glob_png output_dir w1 = []) ->
   try_block E tmpdir image request w0 =
     (w1, Py.raise (Py.RuntimeError
                      ("No output file found. CLI output: "
                       ++ stdout result)%string))).
Proof.
  intros Hrun output_dir expected.
  split; [exact (stage_and_run_zero_exit _ _ _ _ _ _ _ Hrun)|].
  assert (Htry : try_block E tmpdir image request w0 =
                 (output_file <~ find_output tmpdir result;;
                  load_output E output_file) w1).
  { unfold try_block, mbind at 1. rewrite Hrun. reflexivity. }
  rewrite Htry. split; [|split].
  - intros Hex. unfold mbind, find_output.
    fold output_dir. fold expected. rewrite Hex. reflexivity.
  - intros Hex Hdir first rest Hglob. unfold mbind, find_output.
    fold output_dir. fold expected. rewrite Hex, Hdir, Hglob.
    split; [reflexivity|]. split.
    + assert (Hin : In first (glob_png output_dir w1))
        by (rewrite Hglob; left; reflexivity).
      apply glob_png_spec in Hin. exact (proj2 Hin).
    + unfold glob_png in Hglob. apply filter_head in Hglob.
      destruct Hglob as (before & after & Heq & _ & HF).
      exists before, after. split; [exact Heq|].
      eapply Forall_impl; [|exact HF].
      intros p Hp n Hn. cbv beta in Hp. rewrite Hn in Hp. exact Hp.
  - intros Hex Htmp Hnone. unfold mbind at 1.
    rewrite (find_output_nothing tmpdir result w1 Hex Htmp Hnone).
    reflexivity.
Qed.

(** If the tool removed the scratch directory, listing it raises first. *)
Lemma vanished_workspace_hides_the_diagnosis :
  find_output "/tmp/tmpk3v9"
    {| returncode := 0; stdout := "done"; stderr := "" |} [("/tmp", Dir)]
  = ([("/tmp", Dir)], Py.raise (Py.FileNotFoundError "/tmp/tmpk3v9")).
Proof. vm_compute. reflexivity. Qed.

Lemma output_discovery_witness :
  let E := Stub.externals
             (Stub.tool 0 [("/tmp/tmpk3v9/output/upscaled.png", File [x89])])
             Stub.nothing_locked in
  exists w1 result,
    stage_and_run E "/tmp/tmpk3v9" Stub.image Stub.request
      [("/tmp", Dir); ("/tmp/tmpk3v9", Dir)] = (w1, Py.ok result) /\
    returncode result = 0%Z /\
    try_block E "/tmp/tmpk3v9" Stub.image Stub.request
      [("/tmp", Dir); ("/tmp/tmpk3v9", Dir)]
    = load_output E "/tmp/tmpk3v9/output/upscaled.png" w1.
Proof.
  cbn zeta. eexists. eexists.
  split; [vm_compute; reflexivity|].
  destruct (output_discovery
              (Stub.externals
                 (Stub.tool 0
                    [("/tmp/tmpk3v9/output/upscaled.png", File [x89])])
                 Stub.nothing_locked)
              "/tmp/tmpk3v9" Stub.image Stub.request
              [("/tmp", Dir); ("/tmp/tmpk3v9", Dir)] _ _
              ltac:(vm_compute; reflexivity))
    as (Hrc & _ & Hscan & _).
  split; [exact Hrc|].
  exact (proj1 (Hscan ltac:(vm_compute; reflexivity)
                  ltac:(vm_compute; reflexivity) _ _
                  ltac:(vm_compute; reflexivity))).
Defined.

(** No scratch directory, no cleanup: a failure of [mkdtemp] is the outcome
    of the invocation. *)
Lemma mkdtemp_failure_is_the_outcome E image request w w0 e :
  mkdtemp E w = (w0, Py.raise e) ->
  upscale_with_cli E image request w = (w0, Py.raise e).
Proof.
  intros Hmk. unfold upscale_with_cli, mbind. rewrite Hmk. reflexivity.
Qed.

(** C8: however the attempt ends (a result, a failed process, a timeout, a
    missing artifact, or any other exception of the [try] block), the
    scratch directory is then deleted recursively with deletion errors
    suppressed, and the invocation ends exactly as the attempt did: the
    cleanup neither raises nor replaces the outcome. What is left of the
    workspace afterwards is only what could not be deleted. *)
Theorem cleanup_never_masks E image request w w0 tmpdir w1 outcome :
  mkdtemp E w = (w0, Py.ok tmpdir) ->
  try_block E tmpdir image request w0 = (w1, outcome) ->
  let w2 := rmtree_survivors (locked E) tmpdir w1 in
  cleanup E tmpdir w1 = (w2, Py.ok tt) /\
  upscale_with_cli E image request w = (w2, outcome) /\
  (forall p, is_under tmpdir p = true -> path_exists p w2 = true ->
     exists q, path_exists q w1 = true /\ locked E q = true /\
               is_under p q = true) /\
  (forall p, is_under tmpdir p = false -> path_exists p w1 = true ->
     path_exists p w2 = true) /\
  ((forall q, locked E q = false) ->
   forall p, is_under tmpdir p = true -> path_exists p w2 = false).
Proof.
  intros Hmk Htry w2.
  assert (Hclean : cleanup E tmpdir w1 = (w2, Py.ok tt)) by reflexivity.
  assert (Hleft : forall p, is_under tmpdir p = true ->
            path_exists p w2 = true ->
            exists q, path_exists q w1 = true /\ locked E q = true /\
                      is_under p q = true).
  { intros p Hunder Hex. apply path_exists_In in Hex.
    apply rmtree_survivors_spec in Hex. destruct Hex as [_ Hq].
    destruct (Hq Hunder) as (q & Hin & Hlk & Hpq).
    exists q. repeat split; try assumption. apply path_exists_In. exact Hin. }
  split; [exact Hclean|]. split; [|split; [exact Hleft | split]].
  - unfold upscale_with_cli, mbind. rewrite Hmk. unfold Py.ok.
    unfold try_finally. rewrite Htry, Hclean. reflexivity.
  - intros p Hout Hex. apply path_exists_In.
    apply rmtree_survivors_outside; [exact Hout|].
    apply path_exists_In. exact Hex.
  - intros Hfree p Hunder.
    destruct (path_exists p w2) eqn:Hex; [|reflexivity].
    destruct (Hleft p Hunder Hex) as (q & _ & Hlk & _).
    rewrite Hfree in Hlk. discriminate.
Qed.

(** The four ways an invocation ends, on stub tools: each time the result is
    the attempt's own and the disk is back to what it was. *)
Lemma four_outcomes_leave_no_workspace :
  let run tool := upscale_with_cli (Stub.externals tool Stub.nothing_locked)
                    Stub.image Stub.request Stub.disk in
  run (Stub.tool 0 [("/tmp/tmpk3v9/output/input.png", File [x89; x50])])
    = (Stub.disk, Py.ok ([x89; x50], 1920, 1080)%Z) /\
  run (Stub.tool 1 [])
    = (Stub.disk, Py.raise (Py.RuntimeError "CLI failed: oops")) /\
  run Stub.hanging_tool = (Stub.disk, Py.raise Py.TimeoutExpired) /\
  run (Stub.tool 0 [])
    = (Stub.disk,
       Py.raise (Py.RuntimeError "No output file found. CLI output: done")).
Proof. cbn zeta. repeat split; vm_compute; reflexivity. Qed.

(** A file that cannot be deleted stays behind, silently: the outcome is
    still the attempt's own error. *)
Lemma undeletable_input_stays_behind :
  upscale_with_cli
    (Stub.externals (Stub.tool 1 []) (String.eqb "/tmp/tmpk3v9/input.png"))
    Stub.image Stub.request Stub.disk
  = ([("/tmp", Dir); ("/tmp/tmpk3v9", Dir);
      ("/tmp/tmpk3v9/input.png", File [x89; x50])],
     Py.raise (Py.RuntimeError "CLI failed: oops")).
Proof. vm_compute. reflexivity. Qed.

Lemma cleanup_never_masks_witness :
  let E := Stub.externals (Stub.tool 1 []) Stub.nothing_locked in
  upscale_with_cli E Stub.image Stub.request Stub.disk
  = (Stub.disk, Py.raise (Py.RuntimeError "CLI failed: oops")) /\
  path_exists "/tmp/tmpk3v9" Stub.disk = false.
Proof.
  cbn zeta.
  destruct (cleanup_never_masks
              (Stub.externals (Stub.tool 1 []) Stub.nothing_locked)
              Stub.image Stub.request Stub.disk _ _ _ _
              ltac:(vm_compute; reflexivity) ltac:(vm_compute; reflexivity))
    as (_ & Hrun & _ & _ & Hgone).
  split.
  - etransitivity; [exact Hrun|]. vm_compute. reflexivity.
  - reflexivity.
Defined.

(** * Further properties *)

(** ** The planner beyond the claims *)

Local Open Scope Z_scope.

Lemma output_dimensions_swap width height t :
  width <> height ->
  output_dimensions height width t =
    (d <- output_dimensions width height t;; Py.ok (snd d, fst d)).
Proof.
  intros Hne. unfold output_dimensions.
  destruct (Z.ltb_spec height width) as [Hlt | Hge];
    destruct (Z.ltb_spec width height) as [Hlt' | Hge']; try lia.
  - destruct (Py.int_truediv t height) as [e | r]; [reflexivity|].
    cbn [Py.bind].
    destruct (Py.int_mul_float width r) as [e | p]; [reflexivity|].
    cbn [Py.bind].
    destruct (Py.int_of_float p) as [e | o]; reflexivity.
  - destruct (Py.int_truediv t width) as [e | r]; [reflexivity|].
    cbn [Py.bind].
    destruct (Py.int_mul_float height r) as [e | p]; [reflexivity|].
    cbn [Py.bind].
    destruct (Py.int_of_float p) as [e | o]; reflexivity.
Qed.

(** X1: the plan does not depend on the orientation of the image: swapping
    width and height gives the same plan, or the same exception. *)
Theorem plan_ignores_orientation width height target_resolution :
  calculate_tile_settings width height target_resolution =
  calculate_tile_settings height width target_resolution.
Proof.
  destruct (Z.eq_dec width height) as [-> | Hne]; [reflexivity|].
  unfold calculate_tile_settings.
  rewrite (output_dimensions_swap width height _ Hne).
  destruct (output_dimensions width height target_resolution)
    as [e | [ow oh]]; [reflexivity|].
  cbn [Py.bind Py.ok fst snd].
  rewrite (Z.max_comm oh ow), (Z.mul_comm oh ow). reflexivity.
Qed.

(** X2: a side of length zero makes the planner divide by zero, whatever
    the other side and the target are. *)
Theorem zero_side_divides_by_zero width height target_resolution :
  Z.min width height = 0 ->
  calculate_tile_settings width height target_resolution
  = Py.raise Py.ZeroDivisionError.
Proof.
  intros Hmin. unfold calculate_tile_settings, output_dimensions.
  destruct (Z.ltb_spec height width) as [Hlt | Hge].
  - assert (height = 0) by lia. subst height. reflexivity.
  - assert (width = 0) by lia. subst width. reflexivity.
Qed.

Lemma zero_side_divides_by_zero_witness :
  calculate_tile_settings 0 1080 1080 = Py.raise Py.ZeroDivisionError.
Proof. apply zero_side_divides_by_zero. reflexivity. Defined.

(** A quotient of [2 ^ 1024] or more is out of the range of [float]. *)
Lemma int_truediv_overflow t S :
  0 < S -> 2 ^ 1024 * S <= t ->
  Py.int_truediv t S = Py.raise Py.OverflowError.
Proof.
  intros HS Hbig.
  assert (Ht : 0 < t).
  { assert (0 < 2 ^ 1024) by (apply Z.pow_pos_nonneg; lia). nia. }
  unfold Py.int_truediv.
  destruct (Z.eqb_spec S 0) as [? | _]; [lia|].
  destruct (Z.eqb_spec t 0) as [? | _]; [lia|].
  unfold Py.exact_int.
  destruct (Z.ltb_spec t 0) as [? | _]; [lia|].
  destruct (Z.ltb_spec S 0) as [? | _]; [lia|].
  cbn [SFdiv xorb].
  rewrite !Z2Pos.id by lia. rewrite !Z.abs_eq by lia.
  rewrite (div_core_spec t S) by lia.
  pose proof (Zdigits2_gt S ltac:(lia)) as HShi.
  pose proof (Zdigits2_nonneg S) as HdS.
  assert (Hdt : 1024 + Zdigits2 S <= Zdigits2 t).
  { assert (HdS1 : 1 <= Zdigits2 S) by (apply (Zdigits2_ge S 0); cbn; lia).
    pose proof (Zdigits2_le S ltac:(lia)) as HSlo.
    replace (1024 + Zdigits2 S) with ((1023 + Zdigits2 S) + 1) by lia.
    apply Zdigits2_ge; [lia|].
    replace (1023 + Zdigits2 S) with (1024 + (Zdigits2 S - 1)) by lia.
    rewrite Z.pow_add_r by lia.
    assert (0 < 2 ^ 1024) by (apply Z.pow_pos_nonneg; lia). nia. }
  set (s := - Z.min (fexp Py.prec Py.emax (Zdigits2 t - Zdigits2 S)) 0).
  assert (Hs : s = 0) by (unfold s; rewrite fexp_eq; lia).
  rewrite Hs. clear s Hs. rewrite Z.pow_0_r, Z.mul_1_r.
  set (mz := t / S).
  assert (Hmz : 2 ^ 1024 <= mz)
    by (unfold mz; apply Z.div_le_lower_bound; lia).
  assert (Hmzm : mz * S <= t)
    by (unfold mz; rewrite Z.mul_comm; apply Z.mul_div_le; lia).
  assert (Hdz : 1025 <= Zdigits2 mz) by (apply (Zdigits2_ge mz 1024); lia).
  assert (Hp1024 : 0 < 2 ^ 1024) by (apply Z.pow_pos_nonneg; lia).
  pose proof (Zdigits2_le mz ltac:(lia)) as Hmzlo.
  destruct (binary_round_aux_spec false mz (- 0)
              (new_location S (t mod S)) t S)
    as (mr & er & Hres & Hmr & Her & Herr).
  { apply new_location_inv; lia. }
  rewrite fexp_eq in Her, Herr.
  replace (Z.max (- 0) (Z.max (Zdigits2 mz + - 0 - 53) (-1074)))
    with (Zdigits2 mz - 53) in Her, Herr by lia.
  replace (Zdigits2 mz - 53 - - 0) with (Zdigits2 mz - 53) in Herr by lia.
  assert (Hq : 2 ^ (Zdigits2 mz - 53) * 2 ^ 52 = 2 ^ (Zdigits2 mz - 1)).
  { rewrite <- Z.pow_add_r by lia. f_equal. lia. }
  assert (Hq0 : 0 < 2 ^ (Zdigits2 mz - 53)) by (apply Z.pow_pos_nonneg; lia).
  assert (Hpos : 0 < mr).
  { destruct (Z.eq_dec mr 0) as [E0 | ]; [|lia].
    rewrite E0 in Herr.
    replace (0 * 2 ^ (er - - 0) * S - t) with (- t) in Herr by ring.
    rewrite Z.abs_opp, Z.abs_eq in Herr by lia.
    change (2 ^ 52) with 4503599627370496 in Hq. nia. }
  cbv beta iota. rewrite Hres.
  destruct mr as [| m | m]; try lia.
  destruct (Z.leb_spec er (Py.emax - Py.prec)) as [Hle | _];
    [unfold Py.emax, Py.prec in Hle; lia | reflexivity].
Qed.

(** X3: a target resolution of [2 ^ 1024] times the shorter side, or more,
    is beyond what a float can hold: the planner raises OverflowError. *)
Theorem huge_target_overflows width height target_resolution :
  0 < width -> 0 < height ->
  2 ^ 1024 * Z.min width height <= target_resolution ->
  calculate_tile_settings width height target_resolution
  = Py.raise Py.OverflowError.
Proof.
  intros Hw Hh Hbig. unfold calculate_tile_settings, output_dimensions.
  destruct (Z.ltb_spec height width) as [Hlt | Hge].
  - rewrite Z.min_r in Hbig by lia.
    rewrite (int_truediv_overflow _ _ Hh Hbig). reflexivity.
  - rewrite Z.min_l in Hbig by lia.
    rewrite (int_truediv_overflow _ _ Hw Hbig). reflexivity.
Qed.

Lemma huge_target_overflows_witness :
  calculate_tile_settings 1920 1080 (2 ^ 1024 * 1080)
  = Py.raise Py.OverflowError.
Proof.
  apply huge_target_overflows; [lia | lia | ].
  rewrite Z.min_r by lia. apply Z.le_refl.
Defined.

(** Rounding keeps the sign it is given and never produces a NaN. *)
Lemma binary_round_aux_sign mx ex lx N D :
  loc_inv (shr_record_of_loc mx lx) N D ->
  sign_clear (binary_round_aux Py.prec Py.emax false mx ex lx).
Proof.
  intros H.
  destruct (binary_round_aux_spec false mx ex lx N D H)
    as (mr & er & -> & Hmr & _).
  destruct mr as [| m | m]; try lia; [reflexivity|].
  destruct (er <=? Py.emax - Py.prec); reflexivity.
Qed.

Lemma int_truediv_sign t S f :
  0 < t -> 0 < S -> Py.int_truediv t S = Py.ok f -> sign_clear f.
Proof.
  intros Ht HS. unfold Py.int_truediv.
  destruct (Z.eqb_spec S 0) as [? | _]; [lia|].
  destruct (Z.eqb_spec t 0) as [? | _]; [lia|].
  unfold Py.exact_int.
  destruct (Z.ltb_spec t 0) as [? | _]; [lia|].
  destruct (Z.ltb_spec S 0) as [? | _]; [lia|].
  cbn [SFdiv xorb].
  rewrite !Z2Pos.id by lia. rewrite !Z.abs_eq by lia.
  rewrite (div_core_spec t S) by lia. cbv beta iota zeta.
  set (s := - Z.min (fexp Py.prec Py.emax (Zdigits2 t - Zdigits2 S)) 0).
  assert (Hs : 0 <= s) by (unfold s; lia).
  assert (Hp : 0 < 2 ^ s) by (apply Z.pow_pos_nonneg; lia).
  pose proof (binary_round_aux_sign (t * 2 ^ s / S) (- s)
                (new_location S ((t * 2 ^ s) mod S)) (t * 2 ^ s) S
                ltac:(apply new_location_inv; nia)) as Hsign.
  destruct (binary_round_aux Py.prec Py.emax false (t * 2 ^ s / S) (- s)
              (new_location S ((t * 2 ^ s) mod S))) as [b | b | | b m e];
    unfold Py.ok, Py.raise; intros H; try discriminate;
    injection H as <-; exact Hsign.
Qed.

Lemma float_of_int_sign L f :
  0 < L -> Py.float_of_int L = Py.ok f -> sign_clear f.
Proof.
  intros HL. destruct L as [| p | p]; try lia.
  unfold Py.float_of_int. cbn [binary_normalize]. unfold binary_round.
  destruct (shl_align p 0 (fexp Py.prec Py.emax (Z.pos (digits2_pos p) + 0)))
    as [mz ez].
  pose proof (binary_round_aux_sign (Zpos mz) ez loc_Exact (Zpos mz) 1
                ltac:(apply exact_inv; lia)) as Hsign.
  destruct (binary_round_aux Py.prec Py.emax false (Z.pos mz) ez loc_Exact)
    as [b | b | | b m e];
    unfold Py.ok, Py.raise; intros H; try discriminate;
    injection H as <-; exact Hsign.
Qed.

Lemma SFmul_sign x y :
  sign_clear x -> sign_clear y -> x <> S754_infinity false ->
  y <> S754_infinity false ->
  sign_clear (SFmul Py.prec Py.emax x y).
Proof.
  destruct x as [sx | sx | | sx mx ex]; destruct y as [sy | sy | | sy my ey];
    cbn [sign_clear SFmul]; intros Hx Hy Hnx Hny; subst;
    try contradiction; try reflexivity; try congruence.
  cbn [xorb].
  apply (binary_round_aux_sign _ _ _ (Zpos (mx * my)) 1).
  apply exact_inv. lia.
Qed.

Lemma int_of_float_sign f z :
  sign_clear f -> Py.int_of_float f = Py.ok z -> 0 <= z.
Proof.
  destruct f as [s | s | | s m e]; cbn [sign_clear Py.int_of_float];
    unfold Py.ok, Py.raise; intros Hs H; try discriminate; try contradiction.
  - injection H as <-. lia.
  - subst s. injection H as <-.
    destruct e as [| p | p].
    + rewrite Z.shiftl_0_r. lia.
    + apply Z.shiftl_nonneg. lia.
    + apply Z.shiftr_nonneg. lia.
Qed.

(** The long output side of a real image is never negative. *)
Lemma long_side_nonneg L S t out :
  0 < L -> 0 < S -> 0 < t ->
  (r <- Py.int_truediv t S;;
   p <- Py.int_mul_float L r;;
   Py.int_of_float p) = Py.ok out ->
  0 <= out.
Proof.
  intros HL HS Ht.
  destruct (Py.int_truediv t S) as [e | r] eqn:Hr; [discriminate|].
  cbn [Py.bind]. unfold Py.int_mul_float.
  destruct (Py.float_of_int L) as [e | fz] eqn:Hfz; [discriminate|].
  cbn [Py.bind Py.ok]. intros Hout.
  apply (int_of_float_sign (SFmul Py.prec Py.emax fz r)); [|exact Hout].
  pose proof (int_truediv_sign _ _ _ Ht HS Hr) as Hsr.
  pose proof (float_of_int_sign _ _ HL Hfz) as Hsz.
  apply SFmul_sign; try assumption.
  - intros ->. unfold Py.float_of_int in Hfz.
    destruct (binary_normalize Py.prec Py.emax L 0 false); discriminate.
  - intros ->. unfold Py.int_truediv in Hr.
    destruct (S =? 0); [discriminate|]. destruct (t =? 0); [discriminate|].
    destruct (SFdiv Py.prec Py.emax (Py.exact_int t) (Py.exact_int S));
      discriminate.
Qed.

Lemma output_dimensions_nonneg width height t ow oh :
  0 < width -> 0 < height -> 0 < t ->
  output_dimensions width height t = Py.ok (ow, oh) ->
  0 <= ow /\ 0 <= oh.
Proof.
  intros Hw Hh Ht H.
  destruct (output_dimensions_short_side _ _ _ _ _ H) as [Hs1 Hs2].
  unfold output_dimensions in H.
  destruct (Z.ltb_spec height width) as [Hlt | Hge].
  - specialize (Hs1 Hlt). subst oh. split; [|lia].
    apply (long_side_nonneg width height t); try assumption.
    destruct (Py.int_truediv t height) as [e | r]; [discriminate|].
    cbn [Py.bind] in H |- *.
    destruct (Py.int_mul_float width r) as [e | p]; [discriminate|].
    cbn [Py.bind] in H |- *.
    destruct (Py.int_of_float p) as [e | o]; [discriminate|].
    cbn [Py.bind] in H. unfold Py.ok in *. congruence.
  - specialize (Hs2 Hge). subst ow. split; [lia|].
    apply (long_side_nonneg height width t); try assumption.
    destruct (Py.int_truediv t width) as [e | r]; [discriminate|].
    cbn [Py.bind] in H |- *.
    destruct (Py.int_mul_float height r) as [e | p]; [discriminate|].
    cbn [Py.bind] in H |- *.
    destruct (Py.int_of_float p) as [e | o]; [discriminate|].
    cbn [Py.bind] in H. unfold Py.ok in *. congruence.
Qed.

(** X4: the target resolution alone bounds the tile size: one output side
    is the target itself, so every plan for a target above 2048 has tiles of
    at most 384, and every plan for a target above 4096 has tiles of 256. *)
Theorem large_target_small_tiles width height target_resolution ts ov bs :
  calculate_tile_settings width height target_resolution
    = Py.ok (ts, ov, bs) ->
  (2048 < target_resolution -> ts <= 384) /\
  (4096 < target_resolution -> ts = 256).
Proof.
  intros H.
  destruct (calculate_tile_settings_inv _ _ _ _ _ _ H)
    as (ow & oh & Hdim & Hts & _ & _).
  destruct (output_dimensions_short_side _ _ _ _ _ Hdim) as [Hs1 Hs2].
  assert (Hmax : target_resolution <= Z.max ow oh).
  { destruct (Z.lt_ge_cases height width) as [Hlt | Hge];
      [rewrite <- (Hs1 Hlt) | rewrite <- (Hs2 Hge)]; lia. }
  destruct (Z.leb_spec (Z.max ow oh) 1024);
    destruct (Z.leb_spec (Z.max ow oh) 2048);
    destruct (Z.leb_spec (Z.max ow oh) 4096); lia.
Qed.

Lemma large_target_small_tiles_witness :
  (2048 < 4320 -> 256 <= 384) /\ (4096 < 4320 -> 256 = 256).
Proof.
  apply (large_target_small_tiles 7680 4320 4320 256 64 24).
  vm_compute. reflexivity.
Defined.

(** X5: block swapping never comes with the largest tiles: for an image
    with positive sides and a positive target, a plan with
    blocks_to_swap > 0 has tile_size at most 384. *)
Theorem block_swap_excludes_large_tiles width height target_resolution
    ts ov bs :
  0 < width -> 0 < height -> 0 < target_resolution ->
  calculate_tile_settings width height target_resolution
    = Py.ok (ts, ov, bs) ->
  0 < bs -> ts <= 384.
Proof.
  intros Hw Hh Ht H Hbs.
  destruct (calculate_tile_settings_inv _ _ _ _ _ _ H)
    as (ow & oh & Hdim & Hts & _ & Hbsv).
  destruct (output_dimensions_nonneg _ _ _ _ _ Hw Hh Ht Hdim) as [How Hoh].
  destruct (Z.leb_spec (Z.max ow oh) 2048) as [Hsmall | Hlarge].
  - exfalso.
    assert (ow * oh <= 2048 * 2048) by nia.
    destruct (Z.ltb_spec 40000000 (ow * oh));
      destruct (Z.ltb_spec 25000000 (ow * oh));
      destruct (Z.ltb_spec 16000000 (ow * oh));
      destruct (Z.ltb_spec 9000000 (ow * oh)); lia.
  - destruct (Z.leb_spec (Z.max ow oh) 1024);
      destruct (Z.leb_spec (Z.max ow oh) 4096); lia.
Qed.

Lemma block_swap_excludes_large_tiles_witness : 384 <= 384.
Proof.
  apply (block_swap_excludes_large_tiles 3001 3000 3000 384 96 8);
    try lia.
  vm_compute. reflexivity.
Defined.

(** X6: the floor of 64 on the overlap is never what decides it: in every
    plan the overlap is exactly a quarter of the tile size. *)
Theorem overlap_is_a_quarter width height target_resolution ts ov bs :
  calculate_tile_settings width height target_resolution
    = Py.ok (ts, ov, bs) ->
  4 * ov = ts.
Proof.
  intros H.
  destruct (calculate_tile_settings_inv _ _ _ _ _ _ H)
    as (ow & oh & _ & Hts & Hov & _).
  subst ov.
  destruct (Z.leb_spec (Z.max ow oh) 1024);
    destruct (Z.leb_spec (Z.max ow oh) 2048);
    destruct (Z.leb_spec (Z.max ow oh) 4096); subst ts; reflexivity.
Qed.

Lemma overlap_is_a_quarter_witness : 4 * 64 = 256.
Proof.
  apply (overlap_is_a_quarter 4097 64 64 256 64 0). vm_compute. reflexivity.
Defined.

(** X7: the plan is monotone in the output: of two plans, the one for the
    larger max_dim never has the larger tiles, and the one for more pixels
    never swaps fewer blocks. *)
Theorem plan_is_monotone w1 h1 t1 w2 h2 t2 ow1 oh1 ow2 oh2
    ts1 ov1 bs1 ts2 ov2 bs2 :
  output_dimensions w1 h1 t1 = Py.ok (ow1, oh1) ->
  output_dimensions w2 h2 t2 = Py.ok (ow2, oh2) ->
  calculate_tile_settings w1 h1 t1 = Py.ok (ts1, ov1, bs1) ->
  calculate_tile_settings w2 h2 t2 = Py.ok (ts2, ov2, bs2) ->
  (Z.max ow1 oh1 <= Z.max ow2 oh2 -> ts2 <= ts1 /\ ov2 <= ov1) /\
  (ow1 * oh1 <= ow2 * oh2 -> bs1 <= bs2).
Proof.
  intros Hd1 Hd2 H1 H2.
  destruct (calculate_tile_settings_inv _ _ _ _ _ _ H1)
    as (a1 & b1 & Hd1' & Hts1 & Hov1 & Hbs1).
  destruct (calculate_tile_settings_inv _ _ _ _ _ _ H2)
    as (a2 & b2 & Hd2' & Hts2 & Hov2 & Hbs2).
  rewrite Hd1 in Hd1'. rewrite Hd2 in Hd2'.
  unfold Py.ok in Hd1', Hd2'.
  injection Hd1' as <- <-. injection Hd2' as <- <-.
  split.
  - intros Hmax. subst ov1 ov2.
    destruct (Z.leb_spec (Z.max ow1 oh1) 1024);
      destruct (Z.leb_spec (Z.max ow1 oh1) 2048);
      destruct (Z.leb_spec (Z.max ow1 oh1) 4096);
      destruct (Z.leb_spec (Z.max ow2 oh2) 1024);
      destruct (Z.leb_spec (Z.max ow2 oh2) 2048);
      destruct (Z.leb_spec (Z.max ow2 oh2) 4096);
      subst ts1 ts2; try lia; split; vm_compute; discriminate.
  - intros Hpix.
    destruct (Z.ltb_spec 40000000 (ow1 * oh1));
      destruct (Z.ltb_spec 25000000 (ow1 * oh1));
      destruct (Z.ltb_spec 16000000 (ow1 * oh1));
      destruct (Z.ltb_spec 9000000 (ow1 * oh1));
      destruct (Z.ltb_spec 40000000 (ow2 * oh2));
      destruct (Z.ltb_spec 25000000 (ow2 * oh2));
      destruct (Z.ltb_spec 16000000 (ow2 * oh2));
      destruct (Z.ltb_spec 9000000 (ow2 * oh2)); lia.
Qed.

Lemma plan_is_monotone_witness :
  (Z.max 1920 1080 <= Z.max 4097 64 -> 256 <= 512 /\ 64 <= 128) /\
  (1920 * 1080 <= 4097 * 64 -> 0 <= 0).
Proof.
  apply (plan_is_monotone 1920 1080 1080 4097 64 64);
    vm_compute; reflexivity.
Defined.

(** ** The request validator beyond the claims *)

Local Open Scope string_scope.
Local Open Scope list_scope.

(** X8: the validator is idempotent, and what it returns passes its own
    test: validating its result again changes nothing, and the result is
    not below 64. *)
Theorem ensure_minimum_resolution_idempotent v v' :
  ensure_minimum_resolution v = Py.ok v' ->
  ensure_minimum_resolution v' = Py.ok v' /\ lt_int v' 64 = Py.ok false.
Proof.
  destruct v as [| b | z | x | s]; cbn [ensure_minimum_resolution lt_int Py.bind Py.ok].
  - intros H. injection H as <-. split; reflexivity.
  - destruct b; cbn; intros H; injection H as <-; split; reflexivity.
  - destruct (Z.ltb_spec z 64) as [Hlt | Hge]; intros H; injection H as <-.
    + split; reflexivity.
    + cbn [ensure_minimum_resolution lt_int Py.bind Py.ok].
      destruct (Z.ltb_spec z 64); [lia|]. split; reflexivity.
  - destruct (Py.float_lt_int x 64) eqn:Hx; intros H; injection H as <-.
    + split; reflexivity.
    + cbn [ensure_minimum_resolution lt_int Py.bind Py.ok]. rewrite Hx.
      split; reflexivity.
  - discriminate.
Qed.

Lemma ensure_minimum_resolution_idempotent_witness :
  ensure_minimum_resolution (VInt 1080) = Py.ok (VInt 1080) /\
  lt_int (VInt 1080) 64 = Py.ok false.
Proof.
  apply (ensure_minimum_resolution_idempotent (VInt 12)). reflexivity.
Defined.

(** ** The invoker beyond the claims *)

(** Looking for the artifact leaves the file system alone. *)
Lemma find_output_reads_only tmpdir result w :
  fst (find_output tmpdir result w) = w.
Proof.
  unfold find_output.
  destruct (path_exists (path_join (path_join tmpdir "output") "input.png") w);
    [reflexivity|].
  destruct (if path_exists (path_join tmpdir "output") w
            then glob_png (path_join tmpdir "output") w else []);
    [|reflexivity].
  unfold mbind, iterdir.
  destruct (lookup_path tmpdir w) as [[| c] |]; try reflexivity.
  destruct (path_exists (path_join tmpdir "output") w); [|reflexivity].
  destruct (lookup_path (path_join tmpdir "output") w) as [[| c] |];
    reflexivity.
Qed.

(** What [find_output] returns is the expected file or a [*.png] entry of
    the output directory. *)
Lemma find_output_found tmpdir result w f :
  snd (find_output tmpdir result w) = Py.ok f ->
  path_exists f w = true /\
  (f = path_join (path_join tmpdir "output") "input.png" \/
   exists n, child_name (path_join tmpdir "output") f = Some n /\
             ends_with ".png" n = true).
Proof.
  unfold find_output.
  destruct (path_exists (path_join (path_join tmpdir "output") "input.png") w)
    eqn:Hex.
  - cbn [snd]. unfold Py.ok. intros H. injection H as <-.
    split; [exact Hex | left; reflexivity].
  - destruct (path_exists (path_join tmpdir "output") w) eqn:Hdir.
    + destruct (glob_png (path_join tmpdir "output") w) as [| g rest] eqn:Hg.
      * unfold mbind, iterdir, path_exists, throw, Py.raise, Py.ok.
        destruct (lookup_path tmpdir w) as [[| c] |];
          cbv beta iota; try discriminate;
          destruct (lookup_path (path_join tmpdir "output") w) as [[| c'] |];
          cbv beta iota; discriminate.
      * cbn [snd]. unfold Py.ok. intros H. injection H as <-.
        assert (Hin : In g (glob_png (path_join tmpdir "output") w))
          by (rewrite Hg; left; reflexivity).
        apply glob_png_spec in Hin. destruct Hin as [Hin Hn].
        split; [apply path_exists_In; exact Hin | right; exact Hn].
    + unfold mbind, iterdir, throw, Py.raise, Py.ok.
      destruct (lookup_path tmpdir w) as [[| c] |];
        cbv beta iota; try discriminate.
      rewrite Hdir. cbv beta iota. discriminate.
Qed.

(** X9: a successful invocation returns the artifact as it is on disk: the
    process exited with code zero, the bytes are the content of the file
    that was found ([output/input.png] or a [*.png] entry of the output
    directory), and the decoder is only used to read the size back from
    these bytes. *)
Theorem success_returns_the_file_verbatim E image request w w0 tmpdir w2
    bytes width height :
  mkdtemp E w = (w0, Py.ok tmpdir) ->
  upscale_with_cli E image request w = (w2, Py.ok (bytes, width, height)) ->
  exists w1 result f,
    stage_and_run E tmpdir image request w0 = (w1, Py.ok result) /\
    returncode result = 0%Z /\
    snd (find_output tmpdir result w1) = Py.ok f /\
    (f = path_join (path_join tmpdir "output") "input.png" \/
     exists n, child_name (path_join tmpdir "output") f = Some n /\
               ends_with ".png" n = true) /\
    lookup_path f w1 = Some (File bytes) /\
    image_size E bytes = Py.ok (width, height) /\
    w2 = rmtree_survivors (locked E) tmpdir w1.
Proof.
  intros Hmk Hrun.
  unfold upscale_with_cli, mbind in Hrun. rewrite Hmk in Hrun.
  unfold Py.ok in Hrun. unfold try_finally in Hrun.
  destruct (try_block E tmpdir image request w0) as [w1 r] eqn:Htry.
  change (cleanup E tmpdir w1)
    with (rmtree_survivors (locked E) tmpdir w1, @inr Py.exn unit tt) in Hrun.
  cbv beta iota in Hrun. injection Hrun as <- ->.
  unfold try_block, mbind in Htry.
  destruct (stage_and_run E tmpdir image request w0) as [wa [e | result]] eqn:Hst;
    [discriminate|].
  pose proof (find_output_reads_only tmpdir result wa) as Hro.
  destruct (find_output tmpdir result wa) as [wb [e | f]] eqn:Hfind;
    [discriminate|].
  cbn [fst] in Hro. subst wb.
  unfold load_output, mbind, read_bytes, lift, ret in Htry.
  unfold Py.ok, Py.raise in Htry.
  destruct (lookup_path f wa) as [[| c] |] eqn:Hf;
    cbv beta iota in Htry; try discriminate.
  rewrite Hf in Htry. cbv beta iota in Htry.
  destruct (image_size E c) as [e | [sw sh]] eqn:Hsize;
    cbv beta iota in Htry; [discriminate|].
  cbn [fst snd] in Htry.
  injection Htry as <- <- <- <-.
  exists wa, result, f.
  split; [reflexivity|].
  split; [exact (stage_and_run_zero_exit _ _ _ _ _ _ _ Hst)|].
  split; [rewrite Hfind; reflexivity|].
  split.
  { apply (find_output_found tmpdir result wa f). rewrite Hfind. reflexivity. }
  repeat split; assumption.
Qed.

Lemma success_returns_the_file_verbatim_witness :
  let E := Stub.externals
             (Stub.tool 0 [("/tmp/tmpk3v9/output/input.png", File [x89; x50])])
             Stub.nothing_locked in
  exists w1 f,
    lookup_path f w1 = Some (File [x89; x50]) /\
    image_size E [x89; x50] = Py.ok (1920, 1080)%Z.
Proof.
  cbn zeta.
  destruct (success_returns_the_file_verbatim
              (Stub.externals
                 (Stub.tool 0
                    [("/tmp/tmpk3v9/output/input.png", File [x89; x50])])
                 Stub.nothing_locked)
              Stub.image Stub.request Stub.disk _ _ _ _ _ _
              ltac:(vm_compute; reflexivity) ltac:(vm_compute; reflexivity))
    as (w1 & result & f & _ & _ & _ & _ & Hf & Hsize & _).
  exists w1, f. split; assumption.
Defined.

(** *** What the invocation leaves alone *)

Lemma lookup_path_app p w w' :
  lookup_path p (w ++ w') =
  match lookup_path p w with
  | Some n => Some n
  | None => lookup_path p w'
  end.
Proof.
  unfold lookup_path. induction w as [| [q n] w IH]; cbn [app find fst].
  - reflexivity.
  - destruct (String.eqb q p); [reflexivity | exact IH].
Qed.

Lemma lookup_path_new_entry p q n w :
  p <> q -> lookup_path p (w ++ [(q, n)]) = lookup_path p w.
Proof.
  intros Hne. rewrite lookup_path_app.
  destruct (lookup_path p w); [reflexivity|].
  unfold lookup_path. cbn [find fst].
  destruct (String.eqb_spec q p); [congruence | reflexivity].
Qed.

Lemma lookup_path_rewritten p q n w :
  p <> q ->
  lookup_path p
    (map (fun e => if String.eqb (fst e) q then (q, n) else e) w)
  = lookup_path p w.
Proof.
  intros Hne. unfold lookup_path.
  induction w as [| [r m] w IH]; cbn [map find fst]; [reflexivity|].
  destruct (String.eqb_spec r q) as [-> | Hrq]; cbn [fst].
  - destruct (String.eqb_spec q p); [congruence | exact IH].
  - destruct (String.eqb r p); [reflexivity | exact IH].
Qed.

Lemma lookup_path_filter p (g : string * node -> bool) w :
  (forall e, fst e = p -> g e = true) ->
  lookup_path p (filter g w) = lookup_path p w.
Proof.
  intros Hg. unfold lookup_path.
  induction w as [| [r m] w IH]; cbn [filter find fst]; [reflexivity|].
  destruct (String.eqb_spec r p) as [-> | Hrp].
  - rewrite (Hg (p, m) eq_refl). cbn [find fst].
    rewrite String.eqb_refl. reflexivity.
  - destruct (g (r, m)); [|exact IH]. cbn [find fst].
    destruct (String.eqb_spec r p); [congruence | exact IH].
Qed.

Lemma prefix_append s t : prefix s (s ++ t)%string = true.
Proof.
  induction s as [| c s IH]; cbn [append prefix].
  - destruct t; reflexivity.
  - destruct (ascii_dec c c); [exact IH | congruence].
Qed.

Lemma append_assoc_r (a b c : string) :
  (a ++ (b ++ c))%string = ((a ++ b) ++ c)%string.
Proof.
  induction a as [| x a IH]; cbn [append]; [reflexivity | now rewrite IH].
Qed.

Lemma outside_is_no_child d n p :
  is_under d p = false -> p <> path_join d n.
Proof.
  unfold is_under, path_join. intros H ->.
  apply orb_false_iff in H. destruct H as [_ H].
  rewrite append_assoc_r, prefix_append in H. discriminate.
Qed.

Lemma outside_is_not_root d p : is_under d p = false -> p <> d.
Proof.
  unfold is_under. intros H ->. rewrite String.eqb_refl in H. discriminate.
Qed.

Lemma keeps_ret p {A} (a : A) : keeps p (ret a).
Proof. intros w. reflexivity. Qed.

Lemma keeps_throw p {A} e : keeps p (@throw A e).
Proof. intros w. reflexivity. Qed.

Lemma keeps_lift p {A} (r : Py.result A) : keeps p (lift r).
Proof. intros w. reflexivity. Qed.

Lemma keeps_mbind p {A B} (c : M A) (k : A -> M B) :
  keeps p c -> (forall a, keeps p (k a)) -> keeps p (mbind c k).
Proof.
  intros Hc Hk w. unfold mbind. specialize (Hc w).
  destruct (c w) as [w' [e | a]]; cbn [fst] in *; [exact Hc|].
  rewrite Hk. exact Hc.
Qed.

Lemma keeps_try_finally p {A} (body : M A) (fin : M unit) :
  keeps p body -> keeps p fin -> keeps p (try_finally body fin).
Proof.
  intros Hb Hf w. unfold try_finally. specialize (Hb w).
  destruct (body w) as [w1 r]. specialize (Hf w1).
  destruct (fin w1) as [w2 [e | u]]; cbn [fst] in *; congruence.
Qed.

Lemma keeps_try_except p {A} (body : M A) (handler : Py.exn -> M A) :
  keeps p body -> (forall e, keeps p (handler e)) ->
  keeps p (try_except body handler).
Proof.
  intros Hb Hh w. unfold try_except. specialize (Hb w).
  destruct (body w) as [w1 [e | a]]; cbn [fst] in *; [|exact Hb].
  rewrite Hh. exact Hb.
Qed.

Lemma keeps_mkdir p d n : p <> path_join d n -> keeps p (mkdir d n).
Proof.
  intros Hne w. unfold mkdir.
  destruct (negb (path_exists d w)); [reflexivity|].
  destruct (path_exists (path_join d n) w); [reflexivity|].
  cbn [fst]. apply lookup_path_new_entry. exact Hne.
Qed.

Lemma keeps_write_file p q c : p <> q -> keeps p (write_file q c).
Proof.
  intros Hne w. unfold write_file.
  destruct (lookup_path q w) as [[| old] |]; cbn [fst].
  - reflexivity.
  - apply lookup_path_rewritten. exact Hne.
  - apply lookup_path_new_entry. exact Hne.
Qed.

Lemma keeps_read_bytes p q : keeps p (read_bytes q).
Proof.
  intros w. unfold read_bytes.
  destruct (lookup_path q w) as [[| c] |]; reflexivity.
Qed.

Lemma keeps_find_output p tmpdir result : keeps p (find_output tmpdir result).
Proof. intros w. rewrite find_output_reads_only. reflexivity. Qed.

Lemma keeps_cleanup p E tmpdir :
  is_under tmpdir p = false -> keeps p (cleanup E tmpdir).
Proof.
  intros Hout w. unfold cleanup, try_except, rmtree_ignore_errors.
  cbn [fst]. unfold rmtree_survivors. apply lookup_path_filter.
  intros e <-. rewrite Hout. reflexivity.
Qed.

Lemma keeps_try_block p E tmpdir image request :
  is_under tmpdir p = false ->
  (forall a, keeps p (subprocess_run E a)) ->
  keeps p (try_block E tmpdir image request).
Proof.
  intros Hout Htool. unfold try_block.
  apply keeps_mbind.
  - unfold stage_and_run.
    apply keeps_mbind; [apply keeps_mkdir, outside_is_no_child, Hout|].
    intros _. apply keeps_mbind.
    { unfold image_save. apply keeps_mbind; [apply keeps_lift|].
      intros c. apply keeps_write_file, outside_is_no_child, Hout. }
    intros _. apply keeps_mbind; [apply keeps_lift|].
    intros cmd. apply keeps_mbind; [apply Htool|].
    intros result. destruct (negb (returncode result =? 0)%Z);
      [apply keeps_throw | apply keeps_ret].
  - intros result. apply keeps_mbind; [apply keeps_find_output|].
    intros f. unfold load_output.
    apply keeps_mbind; [apply keeps_read_bytes|]. intros b.
    apply keeps_mbind; [apply keeps_read_bytes|]. intros c.
    apply keeps_mbind; [apply keeps_lift|]. intros size.
    apply keeps_ret.
Qed.

(** X10: an invocation touches nothing outside its scratch directory: an
    entry at a path that is not under the directory [mkdtemp] picks, and
    that the external tool leaves alone, is after the invocation what it
    was before, however the invocation ends. *)
Theorem invocation_stays_in_its_workspace E image request p :
  is_under (tmp_name E) p = false ->
  (forall a, keeps p (subprocess_run E a)) ->
  keeps p (upscale_with_cli E image request).
Proof.
  intros Hout Htool w. unfold upscale_with_cli, mbind, mkdtemp.
  destruct (path_exists (tmp_name E) w); [reflexivity|].
  pose proof (keeps_try_finally p _ _
                (keeps_try_block p E (tmp_name E) image request Hout Htool)
                (keeps_cleanup p E (tmp_name E) Hout)) as Hk.
  unfold Py.ok. cbv beta iota. rewrite Hk. apply lookup_path_new_entry, outside_is_not_root, Hout.
Qed.

Lemma invocation_stays_in_its_workspace_witness :
  keeps "/tmp"
    (upscale_with_cli (Stub.externals (Stub.tool 1 []) Stub.nothing_locked)
       Stub.image Stub.request).
Proof.
  apply invocation_stays_in_its_workspace.
  - reflexivity.
  - intros a w. unfold Stub.externals, Stub.tool. cbn [subprocess_run fst].
    rewrite app_nil_r. reflexivity.
Defined.

(** *** How an invocation fails *)

Lemma invocation_ends_as_the_attempt E image request w w0 tmpdir w1 outcome :
  mkdtemp E w = (w0, Py.ok tmpdir) ->
  try_block E tmpdir image request w0 = (w1, outcome) ->
  cleanup E tmpdir w1 = (rmtree_survivors (locked E) tmpdir w1, Py.ok tt) /\
  upscale_with_cli E image request w
  = (rmtree_survivors (locked E) tmpdir w1, outcome).
Proof.
  intros Hmk Htry. split; [reflexivity|].
  unfold upscale_with_cli, mbind. rewrite Hmk. unfold Py.ok.
  unfold try_finally. rewrite Htry. reflexivity.
Qed.

(** X11: an exception of the planner ends the invocation before the
    external tool is started: with the scratch directory and the input
    staged, the invocation raises what the planner raised, and the file
    system is the staged one after cleanup, whatever the tool would do. *)
Theorem planner_failure_stops_before_the_tool E image request
    w w0 tmpdir wa wb e :
  mkdtemp E w = (w0, Py.ok tmpdir) ->
  mkdir tmpdir "output" w0 = (wa, Py.ok tt) ->
  image_save E image (path_join tmpdir "input.png") wa = (wb, Py.ok tt) ->
  calculate_tile_settings (PIL.width image) (PIL.height image)
    (resolution request) = Py.raise e ->
  upscale_with_cli E image request w
  = (rmtree_survivors (locked E) tmpdir wb, Py.raise e).
Proof.
  intros Hmk Hdir Hsave Hplan.
  assert (Htry : try_block E tmpdir image request w0 = (wb, Py.raise e)).
  { unfold try_block, stage_and_run, mbind. rewrite Hdir.
    unfold Py.ok in *. rewrite Hsave. unfold lift, build_cmd.
    rewrite Hplan. reflexivity. }
  destruct (invocation_ends_as_the_attempt E image request w w0 tmpdir wb
              (Py.raise e) Hmk Htry) as [_ H].
  exact H.
Qed.

Lemma planner_failure_stops_before_the_tool_witness :
  upscale_with_cli (Stub.externals (Stub.tool 0 []) Stub.nothing_locked)
    {| PIL.width := 0; PIL.height := 1080; PIL.pixels := [] |}
    Stub.request Stub.disk
  = (Stub.disk, Py.raise Py.ZeroDivisionError).
Proof.
  etransitivity.
  - eapply (planner_failure_stops_before_the_tool
              (Stub.externals (Stub.tool 0 []) Stub.nothing_locked));
      vm_compute; reflexivity.
  - vm_compute. reflexivity.
Defined.

Lemma upscale_nonzero_exit E image request w w0 tmpdir wa wb cmd wc cp :
  mkdtemp E w = (w0, Py.ok tmpdir) ->
  mkdir tmpdir "output" w0 = (wa, Py.ok tt) ->
  image_save E image (path_join tmpdir "input.png") wa = (wb, Py.ok tt) ->
  build_cmd E image request (path_join tmpdir "input.png")
    (path_join tmpdir "output") = Py.ok cmd ->
  subprocess_run E
    {| args := cmd; cwd := SEEDVR2_REPO_DIR E; timeout := 7200;
       env_extra := [("PYTHONIOENCODING", "utf-8");
                     ("PYTHONLEGACYWINDOWSSTDIO", "0")];
       encoding := "utf-8"; errors := "replace" |} wb = (wc, Py.ok cp) ->
  returncode cp <> 0%Z ->
  upscale_with_cli E image request w
  = (rmtree_survivors (locked E) tmpdir wc,
     Py.raise (Py.RuntimeError
                 ("CLI failed: " ++ Py.str_or (stderr cp) (stdout cp))%string)).
Proof.
  intros Hmk Hdir Hsave Hcmd Hrun Hrc.
  pose proof (stage_and_run_nonzero_exit E tmpdir image request
                w0 wa wb cmd wc cp Hdir Hsave Hcmd Hrun Hrc) as Hst.
  apply (invocation_ends_as_the_attempt E image request w w0 tmpdir wc _ Hmk).
  unfold try_block, mbind. rewrite Hst. reflexivity.
Qed.

(** X12: whatever the external process call raises (a timeout, a missing
    interpreter) is what the invocation raises, unchanged, after the
    cleanup. *)
Theorem tool_exception_is_the_outcome E image request
    w w0 tmpdir wa wb cmd wc e :
  mkdtemp E w = (w0, Py.ok tmpdir) ->
  mkdir tmpdir "output" w0 = (wa, Py.ok tt) ->
  image_save E image (path_join tmpdir "input.png") wa = (wb, Py.ok tt) ->
  build_cmd E image request (path_join tmpdir "input.png")
    (path_join tmpdir "output") = Py.ok cmd ->
  subprocess_run E
    {| args := cmd; cwd := SEEDVR2_REPO_DIR E; timeout := 7200;
       env_extra := [("PYTHONIOENCODING", "utf-8");
                     ("PYTHONLEGACYWINDOWSSTDIO", "0")];
       encoding := "utf-8"; errors := "replace" |} wb = (wc, Py.raise e) ->
  upscale_with_cli E image request w
  = (rmtree_survivors (locked E) tmpdir wc, Py.raise e).
Proof.
  intros Hmk Hdir Hsave Hcmd Hrun.
  apply (invocation_ends_as_the_attempt E image request w w0 tmpdir wc _ Hmk).
  unfold try_block, stage_and_run, mbind. rewrite Hdir.
  unfold Py.ok, Py.raise in *. rewrite Hsave. unfold lift. rewrite Hcmd, Hrun.
  reflexivity.
Qed.

Lemma tool_exception_is_the_outcome_witness :
  upscale_with_cli (Stub.externals Stub.hanging_tool Stub.nothing_locked)
    Stub.image Stub.request Stub.disk
  = (Stub.disk, Py.raise Py.TimeoutExpired).
Proof.
  etransitivity.
  - eapply (tool_exception_is_the_outcome
              (Stub.externals Stub.hanging_tool Stub.nothing_locked));
      vm_compute; reflexivity.
  - vm_compute. reflexivity.
Defined.

(** *** The shape of the command *)

Lemma options_skip_plain x l :
  plain x -> filter is_option (x :: l) = filter is_option l.
Proof. unfold plain. intros H. cbn [filter]. rewrite H. reflexivity. Qed.

Lemma options_keep_option x l :
  is_option x = true -> filter is_option (x :: l) = x :: filter is_option l.
Proof. intros H. cbn [filter]. rewrite H. reflexivity. Qed.

Ltac collect_options :=
  repeat first
    [ rewrite options_keep_option by reflexivity
    | rewrite options_skip_plain by (solve [auto with plain] || reflexivity) ].

(** X13: no option is passed twice. For a request whose color_correction
    value does not begin with "--", in an environment whose paths and float
    renderings do not either, the option names of the command are pairwise
    distinct, and the command starts with the interpreter, the script and
    the input file. *)
Theorem options_are_passed_once E tmpdir image request cmd :
  plain_environment E tmpdir ->
  plain (color_correction request) ->
  build_cmd E image request (path_join tmpdir "input.png")
    (path_join tmpdir "output") = Py.ok cmd ->
  NoDup (filter is_option cmd) /\
  firstn 3 cmd = [sys_executable E;
                  path_join (SEEDVR2_REPO_DIR E) "inference_cli.py";
                  path_join tmpdir "input.png"].
Proof.
  intros (Hexe & Hrepo & Htmp & Hfloat) Hcc Hcmd.
  destruct (build_cmd_inv _ _ _ _ _ _ Hcmd) as (ts & ov & bs & Hplan & ->).
  split; [|reflexivity].
  destruct (0 <? max_resolution request)%Z,
    (Py.float_gt_zero (input_noise_scale request)),
    (Py.float_gt_zero (latent_noise_scale request)),
    (0 <? bs)%Z;
    cbn [app]; collect_options; cbn [filter];
    repeat (constructor; [cbn [In]; intuition discriminate|]); constructor.
Qed.

Lemma options_are_passed_once_witness :
  exists cmd,
    build_cmd (Stub.externals Stub.hanging_tool Stub.nothing_locked)
      Stub.image Stub.request
      (path_join "/tmp/tmpk3v9" "input.png")
      (path_join "/tmp/tmpk3v9" "output") = Py.ok cmd /\
    NoDup (filter is_option cmd).
Proof.
  eexists. split; [vm_compute; reflexivity|].
  exact (proj1 (options_are_passed_once
                  (Stub.externals Stub.hanging_tool Stub.nothing_locked)
                  "/tmp/tmpk3v9" Stub.image Stub.request _
                  (stub_environment_plain _ _) eq_refl eq_refl)).
Defined.

(** ** The endpoints *)

(** X14: until [check_models] has run every upscale request is refused with
    503 and the file system is not touched; once it has run no request is
    ever refused with 503: whatever goes wrong is answered with 500. The
    health report says "starting" before and "healthy" after. *)
Theorem readiness_gates_the_endpoints W E request w :
  upscale_endpoint W E new_state request w
    = (w, inl {| status_code := 503; detail := "Server not ready" |}) /\
  upscale_raw W E new_state request w
    = (w, inl {| status_code := 503; detail := "Server not ready" |}) /\
  status (health_check new_state) = "starting" /\
  (forall state,
      status (health_check (check_models state)) = "healthy" /\
      (forall w' failure,
          upscale_endpoint W E (check_models state) request w
            = (w', inl failure) -> status_code failure = 500%Z) /\
      (forall w' failure,
          upscale_raw W E (check_models state) request w
            = (w', inl failure) -> status_code failure = 500%Z)).
Proof.
  repeat split.
  - intros w' failure. unfold upscale_endpoint. cbn [check_models ready negb].
    destruct ((image_data <~ lift (b64decode W (image_base64 request));;
               input_image <~ lift (image_open_rgb W image_data);;
               upscale_with_cli E input_image request) w)
      as [w1 [e | [[b wd] ht]]]; intros H; [|discriminate].
    injection H as _ <-. reflexivity.
  - intros w' failure. unfold upscale_raw. cbn [check_models ready negb].
    destruct ((image_data <~ lift (b64decode W (image_base64 request));;
               input_image <~ lift (image_open_rgb W image_data);;
               upscale_with_cli E input_image request) w)
      as [w1 [e | [[b wd] ht]]]; intros H; [|discriminate].
    injection H as _ <-. reflexivity.
Qed.

(** X15: an image that cannot be decoded (bad base64, or bytes that are no
    image) is answered with 500 carrying the text of the exception, by both
    endpoints, before anything is staged: the file system is unchanged and
    the external tool is not involved. *)
Theorem undecodable_image_is_refused_early W E state request w e :
  ready state = true ->
  b64decode W (image_base64 request) = Py.raise e \/
  (exists data,
      b64decode W (image_base64 request) = Py.ok data /\
      image_open_rgb W data = Py.raise e) ->
  upscale_endpoint W E state request w
    = (w, inl {| status_code := 500; detail := str_exn W e |}) /\
  upscale_raw W E state request w
    = (w, inl {| status_code := 500; detail := str_exn W e |}).
Proof.
  intros Hready Hbad. unfold upscale_endpoint, upscale_raw, mbind, lift.
  rewrite Hready. cbn [negb].
  destruct Hbad as [Hdata | (data & Hdata & Himage)]; rewrite Hdata.
  - split; reflexivity.
  - unfold Py.ok. cbv beta iota. rewrite Himage. split; reflexivity.
Qed.

Lemma undecodable_image_is_refused_early_witness :
  let W := {| b64decode := fun _ => Py.raise Py.ValueError;
              b64encode := fun _ => "";
              image_open_rgb := fun _ => Py.raise Py.ValueError;
              describe := fun _ => "Incorrect padding" |} in
  upscale_endpoint W (Stub.externals Stub.hanging_tool Stub.nothing_locked)
    (check_models new_state) Stub.request Stub.disk
  = (Stub.disk, inl {| status_code := 500; detail := "Incorrect padding" |}).
Proof.
  cbn zeta.
  apply (fun Hready Hbad =>
           proj1 (undecodable_image_is_refused_early
                    {| b64decode := fun _ => Py.raise Py.ValueError;
                       b64encode := fun _ => "";
                       image_open_rgb := fun _ => Py.raise Py.ValueError;
                       describe := fun _ => "Incorrect padding" |}
                    (Stub.externals Stub.hanging_tool Stub.nothing_locked)
                    (check_models new_state) Stub.request Stub.disk
                    Py.ValueError Hready Hbad)).
  - reflexivity.
  - left. reflexivity.
Defined.


(** X17: a non-zero exit of the tool reaches the client of either endpoint
    as a 500 whose detail is "CLI failed: " followed by the tool's standard
    error, or by its standard output when the standard error is empty. *)
Theorem tool_failure_reaches_the_client W E state request w data image
    w0 tmpdir wa wb cmd wc cp :
  ready state = true ->
  b64decode W (image_base64 request) = Py.ok data ->
  image_open_rgb W data = Py.ok image ->
  mkdtemp E w = (w0, Py.ok tmpdir) ->
  mkdir tmpdir "output" w0 = (wa, Py.ok tt) ->
  image_save E image (path_join tmpdir "input.png") wa = (wb, Py.ok tt) ->
  build_cmd E image request (path_join tmpdir "input.png")
    (path_join tmpdir "output") = Py.ok cmd ->
  subprocess_run E
    {| args := cmd; cwd := SEEDVR2_REPO_DIR E; timeout := 7200;
       env_extra := [("PYTHONIOENCODING", "utf-8");
                     ("PYTHONLEGACYWINDOWSSTDIO", "0")];
       encoding := "utf-8"; errors := "replace" |} wb = (wc, Py.ok cp) ->
  returncode cp <> 0%Z ->
  let failure :=
    {| status_code := 500;
       detail := ("CLI failed: "
                  ++ (if String.eqb (stderr cp) "" then stdout cp
                      else stderr cp))%string |} in
  upscale_endpoint W E state request w
    = (rmtree_survivors (locked E) tmpdir wc, inl failure) /\
  upscale_raw W E state request w
    = (rmtree_survivors (locked E) tmpdir wc, inl failure).
Proof.
  intros Hready Hdata Himage Hmk Hdir Hsave Hcmd Hrun Hrc failure.
  pose proof (upscale_nonzero_exit E image request w w0 tmpdir wa wb cmd wc cp
                Hmk Hdir Hsave Hcmd Hrun Hrc) as Hup.
  assert (Hmsg : Py.str_or (stderr cp) (stdout cp)
                 = if String.eqb (stderr cp) "" then stdout cp else stderr cp).
  { destruct (stderr cp); reflexivity. }
  unfold upscale_endpoint, upscale_raw, mbind, lift.
  rewrite Hready, Hdata. unfold Py.ok in *. rewrite Himage, Hup.
  unfold failure. rewrite <- Hmsg. split; reflexivity.
Qed.

Lemma tool_failure_reaches_the_client_witness :
  let W := {| b64decode := fun _ => Py.ok [x89; x50];
              b64encode := fun _ => "iVA=";
              image_open_rgb := fun _ => Py.ok Stub.image;
              describe := fun _ => "" |} in
  upscale_raw W (Stub.externals (Stub.tool 1 []) Stub.nothing_locked)
    (check_models new_state) Stub.request Stub.disk
  = (Stub.disk, inl {| status_code := 500; detail := "CLI failed: oops" |}).
Proof.
  cbn zeta. etransitivity.
  - eapply proj2.
    eapply (tool_failure_reaches_the_client
              {| b64decode := fun _ => Py.ok [x89; x50];
                 b64encode := fun _ => "iVA=";
                 image_open_rgb := fun _ => Py.ok Stub.image;
                 describe := fun _ => "" |}
              (Stub.externals (Stub.tool 1 []) Stub.nothing_locked)
              (check_models new_state) Stub.request Stub.disk);
      try (vm_compute; reflexivity).
    vm_compute. discriminate.
  - vm_compute. reflexivity.
Defined.

(** ** The bootstrap *)

(** Whatever happens in the zip fallback, it answers: it returns a bool. *)
Lemma download_zip_never_raises B w :
  exists b, snd (download_zip B w) = Py.ok b.
Proof.
  unfold download_zip, try_except.
  match goal with
  | |- context [match ?c w with _ => _ end] => destruct (c w) as [w1 [e | a]]
  end.
  - exists false. reflexivity.
  - exists a. reflexivity.
Qed.

(** X18: the only exception [setup_seedvr2] lets through is one raised by
    the [git clone] call that is neither FileNotFoundError nor
    TimeoutExpired: a missing or a hanging git, and every failure of the
    zip fallback, end in an answer, not in an exception. *)
Theorem setup_raises_only_what_git_raises B w w' e :
  setup_seedvr2 B w = (w', Py.raise e) <->
  path_exists (path_join (repo_dir B) "inference_cli.py") w = false /\
  run B {| argv := ["git"; "clone"; "--depth"; "1";
                    "https://github.com/numz/ComfyUI-SeedVR2_VideoUpscaler.git";
                    repo_dir B];
           time_limit := 300;
           decoding := None |} w = (w', Py.raise e) /\
  missing_or_timeout e = false.
Proof.
  unfold setup_seedvr2.
  set (git := {| argv := ["git"; "clone"; "--depth"; "1";
                    "https://github.com/numz/ComfyUI-SeedVR2_VideoUpscaler.git";
                    repo_dir B];
                 time_limit := 300; decoding := None |}).
  split.
  - destruct (path_exists (path_join (repo_dir B) "inference_cli.py") w);
      [discriminate|].
    destruct (run B git w) as [w1 [e1 | result]].
    + destruct (missing_or_timeout e1) eqn:Hclass.
      * intros H. exfalso.
        destruct (download_zip_never_raises B w1) as [b Hb].
        rewrite H in Hb. discriminate.
      * unfold Py.raise. intros H. injection H as <- <-.
        repeat split. exact Hclass.
    + destruct (returncode result =? 0)%Z; [discriminate|].
      intros H. exfalso.
      destruct (download_zip_never_raises B w1) as [b Hb].
      rewrite H in Hb. discriminate.
  - intros (-> & -> & Hclass). unfold Py.raise. rewrite Hclass. reflexivity.
Qed.

Lemma install_dependencies_returns B w :
  snd (install_dependencies B w) = Py.ok tt.
Proof.
  unfold install_dependencies.
  destruct (path_exists (path_join (repo_dir B) "requirements.txt") w);
    cbn [negb]; [|reflexivity].
  unfold try_except, mbind.
  match goal with
  | |- context [run B ?c w] => destruct (run B c w) as [w1 [e | r]]
  end; reflexivity.
Qed.

(** X19: installing the dependencies never raises, whatever pip does (a
    non-zero exit, a timeout, a missing interpreter), and does nothing at
    all when there is no requirements.txt. *)
Theorem install_dependencies_never_raises B w :
  snd (install_dependencies B w) = Py.ok tt /\
  (path_exists (path_join (repo_dir B) "requirements.txt") w = false ->
   install_dependencies B w = (w, Py.ok tt)).
Proof.
  split; [apply install_dependencies_returns|].
  intros Hnone. unfold install_dependencies. rewrite Hnone. reflexivity.
Qed.

(** X20: how the start-up ends is decided by the setup alone: exit code 1
    exactly when the setup answers False, the exception of the setup when
    it raises, and the imports otherwise; the dependency installation
    cannot stop it. *)
Theorem startup_follows_the_setup B w :
  snd (startup B w) =
  match snd (setup_seedvr2 B w) with
  | inl e => Raised e
  | inr false => SystemExit 1
  | inr true => Imports
  end.
Proof.
  unfold startup.
  destruct (setup_seedvr2 B w) as [w1 [e | [|]]]; cbn [snd]; try reflexivity.
  pose proof (install_dependencies_returns B w1) as Hpip.
  destruct (install_dependencies B w1) as [w2 [e | u]]; cbn [snd] in *;
    [discriminate | reflexivity].
Qed.
